(** * google_trans2: the translation client and its error classification

    A shallow embedding of [google_trans2/translate.py] and
    [google_trans2/exceptions.py].

    - Python values that travel through the code (decoded JSON, the
      arguments of [translate] and [detect]) are the inductive [pyval].
    - A [str] is a [string]: a sequence of one-byte code points
      (U+0000..U+00FF).
    - Exceptions are explicit: a computation returns [Ret v] or
      [Raise e].  Warnings written to the logger and requests posted on
      the session are recorded in a trace.
    - [json.loads], [bytes.decode] and the network are library code and
      are section variables; the constants of [constants.py]
      ([GOOGLE_TTS_RPC], [LANGUAGES], [URLS_SUFFIX],
      [URL_SUFFIX_DEFAULT]) and of [uas.py] ([USER_AGENTS]) are section
      variables as well. *)

From Stdlib Require Import String Ascii List ZArith Lia Bool DecimalString.
From stdpp Require Import gmap strings.
Import ListNotations.
Local Open Scope string_scope.
Local Open Scope nat_scope.

(** ** Python values *)

#[local] Unset Elimination Schemes.
Inductive pyval : Type :=
| PNone
| PBool (b : bool)
| PInt (z : Z)
| PFloat (repr : string)          (* a float, named by its repr *)
| PStr (s : string)
| PList (l : list pyval)
| PDict (d : list (string * pyval)). (* insertion-ordered, string keys *)
#[local] Set Elimination Schemes.

Inductive exn : Type :=
| TypeError
| IndexError
| KeyError (key : pyval)
| AttributeError (attr : string)
| JSONDecodeError
| UnicodeDecodeError
| UnboundLocalError
| ConnectTimeout                  (* requests.exceptions.ConnectTimeout *)
| HTTPError                       (* requests.exceptions.HTTPError *)
| RequestException                (* any other requests exception *)
| GoogleTranslateError (msg : option string).

(** the exceptions of the [requests] library, which the [except]
    clauses of the client catch *)
Definition requests_exception (e : exn) : bool :=
  match e with
  | ConnectTimeout | HTTPError | RequestException => true
  | _ => false
  end.

(** ** Computations that may raise *)

Inductive res (A : Type) : Type :=
| Ret (a : A)
| Raise (e : exn).
Arguments Ret {A} a.
Arguments Raise {A} e.

Definition rbind {A B} (m : res A) (k : A -> res B) : res B :=
  match m with
  | Ret a => k a
  | Raise e => Raise e
  end.

Declare Scope res_scope.
Delimit Scope res_scope with res.
Notation "'LET' x <- m 'IN' k" := (rbind m (fun x => k))
  (at level 10, x name, m at level 100, k at level 200) : res_scope.
Local Open Scope res_scope.

Definition raised {A} (m : res A) : bool :=
  match m with Ret _ => false | Raise _ => true end.

(** [m] raises, if it raises, an exception that is not one of the
    [requests] library *)
Definition raises_no_requests_exception {A} (m : res A) : Prop :=
  forall e, m = Raise e -> requests_exception e = false.

(** ** Strings *)

Module Str.

Definition code (c : ascii) : nat := nat_of_ascii c.

(** [str.isspace] on one character, for code points below 256. *)
Definition isspace (c : ascii) : bool :=
  let n := code c in
  ((9 <=? n) && (n <=? 13)) || ((28 <=? n) && (n <=? 32))
  || (n =? 133) || (n =? 160).

Fixpoint lstrip (s : string) : string :=
  match s with
  | String c s' => if isspace c then lstrip s' else s
  | EmptyString => EmptyString
  end.

Fixpoint rstrip (s : string) : string :=
  match s with
  | String c s' =>
      match rstrip s' with
      | EmptyString => if isspace c then EmptyString else String c EmptyString
      | r => String c r
      end
  | EmptyString => EmptyString
  end.

(** [s.strip()] *)
Definition strip (s : string) : string := rstrip (lstrip s).

(** [c.lower()] for code points below 256. *)
Definition lower_char (c : ascii) : ascii :=
  let n := code c in
  if ((65 <=? n) && (n <=? 90))
     || ((192 <=? n) && (n <=? 222) && negb (n =? 215))
  then ascii_of_nat (n + 32) else c.

Fixpoint lower (s : string) : string :=
  match s with
  | String c s' => String (lower_char c) (lower s')
  | EmptyString => EmptyString
  end.

(** [needle in hay] *)
Fixpoint contains (needle hay : string) : bool :=
  String.prefix needle hay
  || match hay with
     | String _ hay' => contains needle hay'
     | EmptyString => false
     end.

Fixpoint chars (s : string) : list string :=
  match s with
  | String c s' => String c EmptyString :: chars s'
  | EmptyString => []
  end.

Fixpoint concat (l : list string) : string :=
  match l with
  | s :: l' => s +:+ concat l'
  | [] => EmptyString
  end.

Fixpoint join (sep : string) (l : list string) : string :=
  match l with
  | [] => EmptyString
  | [s] => s
  | s :: l' => s +:+ sep +:+ join sep l'
  end.

(** [len(s)] *)
Definition len (s : string) : Z := Z.of_nat (String.length s).

Fixpoint mem (c : ascii) (s : string) : bool :=
  match s with
  | String c' s' => (code c =? code c') || mem c s'
  | EmptyString => false
  end.

(** the last character of [s] is a space *)
Fixpoint ends_with_space (s : string) : bool :=
  match s with
  | EmptyString => false
  | String c EmptyString => code c =? 32
  | String _ s' => ends_with_space s'
  end.

(** every character of [s] satisfies [p] *)
Fixpoint forallb (p : ascii -> bool) (s : string) : bool :=
  match s with
  | String c s' => p c && forallb p s'
  | EmptyString => true
  end.

(** [str(n)] for an int *)
Definition of_Z (z : Z) : string := NilZero.string_of_int (Z.to_int z).

Definition hex_digit (upper : bool) (n : nat) : ascii :=
  if n <? 10 then ascii_of_nat (48 + n)
  else ascii_of_nat ((if upper then 55 else 87) + n).

(** two hexadecimal digits of a code point below 256 *)
Definition hex2 (upper : bool) (c : ascii) : string :=
  let n := code c in
  String (hex_digit upper (n / 16)) (String (hex_digit upper (n mod 16)) EmptyString).

End Str.

(** ** Operations of the Python runtime that the client uses *)

Module Py.

Definition dquote : ascii := ascii_of_nat 34.
Definition squote : ascii := ascii_of_nat 39.
Definition backslash : ascii := ascii_of_nat 92.

Definition str1 (c : ascii) : string := String c EmptyString.

(** [len(v)] *)
Definition len (v : pyval) : res Z :=
  match v with
  | PStr s => Ret (Str.len s)
  | PList l => Ret (Z.of_nat (List.length l))
  | PDict d => Ret (Z.of_nat (List.length d))
  | _ => Raise TypeError
  end.

(** [v[i]] for a literal index [i >= 0]; the keys of a decoded JSON
    object are strings, so an int never is one of them *)
Definition getitem (v : pyval) (i : nat) : res pyval :=
  match v with
  | PList l =>
      match nth_error l i with
      | Some x => Ret x
      | None => Raise IndexError
      end
  | PStr s =>
      match String.get i s with
      | Some c => Ret (PStr (str1 c))
      | None => Raise IndexError
      end
  | PDict _ => Raise (KeyError (PInt (Z.of_nat i)))
  | _ => Raise TypeError
  end.

(** the items that [for x in v] and [list(v)] go through *)
Definition iter (v : pyval) : res (list pyval) :=
  match v with
  | PList l => Ret l
  | PStr s => Ret (List.map PStr (Str.chars s))
  | PDict d => Ret (List.map (fun kv => PStr (fst kv)) d)
  | _ => Raise TypeError
  end.

(** [list(v)] *)
Definition list_ (v : pyval) : res pyval :=
  LET l <- iter v IN Ret (PList l).

(** [v.strip()] *)
Definition strip (v : pyval) : res string :=
  match v with
  | PStr s => Ret (Str.strip s)
  | _ => Raise (AttributeError "strip")
  end.

(** [v.lower()] *)
Definition lower (v : pyval) : res string :=
  match v with
  | PStr s => Ret (Str.lower s)
  | _ => Raise (AttributeError "lower")
  end.

(** truth value of [v] in a condition *)
Definition truthy (v : pyval) : bool :=
  match v with
  | PNone => false
  | PBool b => b
  | PInt z => negb (z =? 0)%Z
  | PFloat r => negb (String.eqb r "0.0" || String.eqb r "-0.0")
  | PStr s => negb (String.eqb s "")
  | PList l => negb (List.length l =? 0)
  | PDict d => negb (List.length d =? 0)
  end.

(** [repr] of a str: single quotes unless the text has a single and
    no double quote; backslash escapes for the quote, the backslash,
    tab, newline, return; [\xhh] for what is not printable *)
Definition repr_char (q c : ascii) : string :=
  let n := Str.code c in
  if (n =? Str.code q) || (n =? 92) then String backslash (str1 c)
  else if n =? 9 then String backslash "t"
  else if n =? 10 then String backslash "n"
  else if n =? 13 then String backslash "r"
  else if (n <? 32) || ((127 <=? n) && (n <=? 160)) || (n =? 173)
       then String backslash ("x" +:+ Str.hex2 false c)
  else str1 c.

Definition repr_str (s : string) : string :=
  let q := if Str.mem squote s && negb (Str.mem dquote s) then dquote else squote in
  String q (Str.concat (List.map (repr_char q) (list_ascii_of_string s)))
    +:+ str1 q.

Fixpoint repr (v : pyval) : string :=
  match v with
  | PNone => "None"
  | PBool true => "True"
  | PBool false => "False"
  | PInt z => Str.of_Z z
  | PFloat r => r
  | PStr s => repr_str s
  | PList l => "[" +:+ Str.join ", " (List.map repr l) +:+ "]"
  | PDict d =>
      "{" +:+ Str.join ", "
                (List.map (fun kv => repr_str (fst kv) +:+ ": " +:+ repr (snd kv)) d)
          +:+ "}"
  end.

(** [str(v)] *)
Definition str (v : pyval) : string :=
  match v with
  | PStr s => s
  | _ => repr v
  end.

(** one character of [json.dumps] output (ensure_ascii is on) *)
Definition json_escape_char (c : ascii) : string :=
  let n := Str.code c in
  if (n =? 34) || (n =? 92) then String backslash (str1 c)
  else if n =? 8 then String backslash "b"
  else if n =? 9 then String backslash "t"
  else if n =? 10 then String backslash "n"
  else if n =? 12 then String backslash "f"
  else if n =? 13 then String backslash "r"
  else if (n <? 32) || (126 <? n)
       then String backslash ("u00" +:+ Str.hex2 false c)
  else str1 c.

Definition json_str (s : string) : string :=
  String dquote
    (Str.concat (List.map json_escape_char (list_ascii_of_string s)))
    +:+ str1 dquote.

(** [json.dumps(v, separators=(",", ":"))] *)
Fixpoint json_dumps (v : pyval) : string :=
  match v with
  | PNone => "null"
  | PBool true => "true"
  | PBool false => "false"
  | PInt z => Str.of_Z z
  | PFloat r => r
  | PStr s => json_str s
  | PList l => "[" +:+ Str.join "," (List.map json_dumps l) +:+ "]"
  | PDict d =>
      "{" +:+ Str.join ","
                (List.map (fun kv => json_str (fst kv) +:+ ":" +:+ json_dumps (snd kv)) d)
          +:+ "}"
  end.

(** [urllib.parse.quote(s)]: letters, digits and [_.-~/] stay, every
    other byte of the UTF-8 encoding becomes [%XX] *)
Definition quote_safe (c : ascii) : bool :=
  let n := Str.code c in
  ((65 <=? n) && (n <=? 90)) || ((97 <=? n) && (n <=? 122))
  || ((48 <=? n) && (n <=? 57)) || Str.mem c "_.-~/".

Definition quote_char (c : ascii) : string :=
  let n := Str.code c in
  if quote_safe c then str1 c
  else if n <? 128 then "%" +:+ Str.hex2 true c
  else "%" +:+ Str.hex2 true (ascii_of_nat (192 + n / 64))
       +:+ "%" +:+ Str.hex2 true (ascii_of_nat (128 + n mod 64)).

Definition quote (s : string) : string :=
  Str.concat (List.map quote_char (list_ascii_of_string s)).

(** a character that stands for itself in a form-encoded body, or the
    percent sign of an escape *)
Definition form_char (c : ascii) : bool :=
  quote_safe c || (Str.code c =? 37).

End Py.


(** the text that the sentence loop builds from the pieces: each one
    stripped and followed by one space *)
Definition spaced (pieces : list string) : string :=
  Str.concat (List.map (fun p => Str.strip p +:+ " ") pieces).

(** [pieces] are the first elements of the fragments, all of them str *)
Definition first_elements (fragments : list pyval) (pieces : list string) : Prop :=
  Forall2 (fun f p => Py.getitem f 0 = Ret (PStr p)) fragments pieces.

(** ** Stand-ins for the library and the backend, used in the examples

    The development is parametric in [json.loads] and [bytes.decode].
    The examples run it on concrete response lines, with the decoders
    below.  [Mock.json_loads] reads null, true, false, integers,
    strings, arrays and objects. *)

Module Mock.

Definition is_ws (c : ascii) : bool :=
  let n := Str.code c in (n =? 32) || (n =? 9) || (n =? 10) || (n =? 13).

Fixpoint skip_ws (s : string) : string :=
  match s with
  | String c s' => if is_ws c then skip_ws s' else s
  | EmptyString => EmptyString
  end.

Definition hex_val (c : ascii) : option nat :=
  let n := Str.code c in
  if (48 <=? n) && (n <=? 57) then Some (n - 48)
  else if (65 <=? n) && (n <=? 70) then Some (n - 55)
  else if (97 <=? n) && (n <=? 102) then Some (n - 87)
  else None.

Definition simple_escape (e : ascii) : option ascii :=
  let n := Str.code e in
  if (n =? 34) || (n =? 92) || (n =? 47) then Some e
  else if n =? 98 then Some (ascii_of_nat 8)
  else if n =? 102 then Some (ascii_of_nat 12)
  else if n =? 110 then Some (ascii_of_nat 10)
  else if n =? 114 then Some (ascii_of_nat 13)
  else if n =? 116 then Some (ascii_of_nat 9)
  else None.

(** the text after an opening double quote, up to the closing one *)
Fixpoint string_body (s : string) : option (string * string) :=
  match s with
  | EmptyString => None
  | String c s' =>
      if Str.code c =? 34 then Some (EmptyString, s')
      else if Str.code c =? 92 then
        match s' with
        | String e s'' =>
            if Str.code e =? 117 then
              match s'' with
              | String h1 (String h2 (String h3 (String h4 rest))) =>
                  match hex_val h1, hex_val h2, hex_val h3, hex_val h4 with
                  | Some 0, Some 0, Some a, Some b =>
                      match string_body rest with
                      | Some (r, k) => Some (String (ascii_of_nat (16 * a + b)) r, k)
                      | None => None
                      end
                  | _, _, _, _ => None
                  end
              | _ => None
              end
            else
              match simple_escape e, string_body s'' with
              | Some x, Some (r, k) => Some (String x r, k)
              | _, _ => None
              end
        | EmptyString => None
        end
      else if Str.code c <? 32 then None
      else
        match string_body s' with
        | Some (r, k) => Some (String c r, k)
        | None => None
        end
  end.

Definition is_digit (c : ascii) : bool :=
  (48 <=? Str.code c) && (Str.code c <=? 57).

Fixpoint digits (acc : Z) (s : string) : Z * string :=
  match s with
  | String c s' =>
      if is_digit c then digits (10 * acc + Z.of_nat (Str.code c - 48))%Z s'
      else (acc, s)
  | EmptyString => (acc, s)
  end.

Definition number (s : string) : option (pyval * string) :=
  let '(neg, s1) :=
    match s with
    | String c s' => if Str.code c =? 45 then (true, s') else (false, s)
    | EmptyString => (false, s)
    end in
  match s1 with
  | String c _ =>
      if is_digit c then
        let '(z, k) := digits 0%Z s1 in
        match k with
        | String d _ =>
            if (Str.code d =? 46) || (Str.code d =? 101) || (Str.code d =? 69)
            then None
            else Some (PInt (if neg then - z else z)%Z, k)
        | EmptyString => Some (PInt (if neg then - z else z)%Z, k)
        end
      else None
  | EmptyString => None
  end.

Definition drop (n : nat) (s : string) : string :=
  String.substring n (String.length s - n) s.

(** a later member with the same key replaces the value of the
    earlier one, at the earlier one's place *)
Fixpoint dict_set (k : string) (v : pyval) (d : list (string * pyval)) :=
  match d with
  | (k', v') :: d' =>
      if String.eqb k k' then (k', v) :: d' else (k', v') :: dict_set k v d'
  | [] => [(k, v)]
  end.

Fixpoint value (fuel : nat) (s : string) : option (pyval * string) :=
  match fuel with
  | O => None
  | S fuel' =>
      let s := skip_ws s in
      if String.prefix "null" s then Some (PNone, drop 4 s)
      else if String.prefix "true" s then Some (PBool true, drop 4 s)
      else if String.prefix "false" s then Some (PBool false, drop 5 s)
      else
        match s with
        | String c s' =>
            if Str.code c =? 34 then
              match string_body s' with
              | Some (r, k) => Some (PStr r, k)
              | None => None
              end
            else if Str.code c =? 91 then
              match skip_ws s' with
              | String c1 k1 =>
                  if Str.code c1 =? 93 then Some (PList [], k1)
                  else match elems fuel' s' with
                       | Some (l, k) => Some (PList l, k)
                       | None => None
                       end
              | EmptyString => None
              end
            else if Str.code c =? 123 then
              match skip_ws s' with
              | String c1 k1 =>
                  if Str.code c1 =? 125 then Some (PDict [], k1)
                  else match members fuel' [] s' with
                       | Some (d, k) => Some (PDict d, k)
                       | None => None
                       end
              | EmptyString => None
              end
            else number s
        | EmptyString => None
        end
  end
with elems (fuel : nat) (s : string) : option (list pyval * string) :=
  match fuel with
  | O => None
  | S fuel' =>
      match value fuel' s with
      | Some (v, k) =>
          match skip_ws k with
          | String c k' =>
              if Str.code c =? 44 then
                match elems fuel' k' with
                | Some (l, k2) => Some (v :: l, k2)
                | None => None
                end
              else if Str.code c =? 93 then Some ([v], k')
              else None
          | EmptyString => None
          end
      | None => None
      end
  end
with members (fuel : nat) (acc : list (string * pyval)) (s : string)
  : option (list (string * pyval) * string) :=
  match fuel with
  | O => None
  | S fuel' =>
      match skip_ws s with
      | String q s1 =>
          if Str.code q =? 34 then
            match string_body s1 with
            | Some (key, k) =>
                match skip_ws k with
                | String c k' =>
                    if Str.code c =? 58 then
                      match value fuel' k' with
                      | Some (v, k2) =>
                          let acc' := dict_set key v acc in
                          match skip_ws k2 with
                          | String c2 k3 =>
                              if Str.code c2 =? 44 then members fuel' acc' k3
                              else if Str.code c2 =? 125 then Some (acc', k3)
                              else None
                          | EmptyString => None
                          end
                      | None => None
                      end
                    else None
                | EmptyString => None
                end
            | None => None
            end
          else None
      | EmptyString => None
      end
  end.

Definition json_loads (s : string) : option pyval :=
  match value (2 * String.length s + 2) s with
  | Some (v, k) =>
      match skip_ws k with
      | EmptyString => Some v
      | _ => None
      end
  | None => None
  end.

(** UTF-8 decoding of a byte string whose code points are below 256 *)
Fixpoint decode_utf8 (b : string) : option string :=
  match b with
  | EmptyString => Some EmptyString
  | String c b' =>
      let n := Str.code c in
      if n <? 128 then
        match decode_utf8 b' with
        | Some r => Some (String c r)
        | None => None
        end
      else if (n =? 194) || (n =? 195) then
        match b' with
        | String c2 b'' =>
            let m := Str.code c2 in
            if (128 <=? m) && (m <? 192) then
              match decode_utf8 b'' with
              | Some r => Some (String (ascii_of_nat ((n - 192) * 64 + (m - 128))) r)
              | None => None
              end
            else None
        | EmptyString => None
        end
      else None
  end.

End Mock.

(** ** The world around the client *)

(** What the client reads of a [requests.Response]; [lines] is what
    [iter_lines] yields, each line still undecoded. *)
Record Response : Type := {
  status_code : Z;
  reason : string;
  lines : list string
}.

(** How [session.post] ends. *)
Inductive post_outcome : Type :=
| PostResponse (r : Response)
| PostConnectTimeout
| PostRequestException.

Inductive event : Type :=
| LogWarning (msg : string)
| SessionPost (url data : string) (timeout : Z).

(** A computation with its trace of warnings and posted requests. *)
Definition run (A : Type) : Type := (list event * res A)%type.

Definition ret {A} (a : A) : run A := ([], Ret a).
Definition lift {A} (m : res A) : run A := ([], m).
Definition emit (e : event) : run unit := ([e], Ret tt).

Definition bind {A B} (m : run A) (k : A -> run B) : run B :=
  match m with
  | (t, Ret a) => let '(t', r) := k a in ((t ++ t')%list, r)
  | (t, Raise e) => (t, Raise e)
  end.

Notation "'DO' x <- m 'IN' k" := (bind m (fun x => k))
  (at level 10, x name, m at level 100, k at level 200) : res_scope.

Definition trace {A} (m : run A) : list event := fst m.
Definition outcome {A} (m : run A) : res A := snd m.

Definition is_post (e : event) : bool :=
  match e with SessionPost _ _ _ => true | LogWarning _ => false end.

(** no request went out *)
Definition no_request {A} (m : run A) : bool :=
  negb (existsb is_post (trace m)).

(** [logger.warning(msg)] *)
Definition warning (msg : string) : run unit := emit (LogWarning msg).

(** [random.choice(seq)], where [rnd] is the number the generator draws *)
Definition random_choice {A} (rnd : nat) (seq : list A) : res A :=
  match nth_error seq (rnd mod List.length seq) with
  | Some x => Ret x
  | None => Raise IndexError
  end.

(** [r.raise_for_status()] *)
Definition raise_for_status (r : Response) : res unit :=
  if ((400 <=? status_code r) && (status_code r <? 600))%Z
  then Raise HTTPError else Ret tt.

(** ** exceptions.py *)

(** The attributes [infer_msg] reads of the object passed as [tts];
    [None] when the object has no such attribute. *)
Class TTSLike (T : Type) : Type := {
  lang_check : T -> option pyval;
  lang : T -> option pyval
}.

Definition attr {T} (get : T -> option pyval) (name : string) (o : T) : res pyval :=
  match get o with
  | Some v => Ret v
  | None => Raise (AttributeError name)
  end.

Section Exceptions.
Context {T : Type} `{TTSLike T}.

Definition infer_msg (tts : T) (rsp : option Response) : res string :=
  match rsp with
  | None => Ret "Failed to connect. Probable cause: timeout"
  | Some rsp =>
      let status := status_code rsp in
      let reason := reason rsp in
      let premise := Str.of_Z status +:+ " (" +:+ reason +:+ ") from TTS API" in
      LET cause <-
        (if (status =? 403)%Z then Ret "Bad token or upstream API changes"
         else
           LET unsupported <-
             (if (status =? 200)%Z
              then LET flag <- attr lang_check "lang_check" tts IN
                   Ret (negb (Py.truthy flag))
              else Ret false) IN
           if unsupported then
             LET l <- attr lang "lang" tts IN
             Ret ("No audio stream in response. Unsupported language '"
                    +:+ Py.str l +:+ "'")
           else if (500 <=? status)%Z then Ret "Upstream API error. Try again later."
           else Ret "Unknown") IN
      Ret (premise +:+ ". Probable cause: " +:+ cause)
  end.

(** [GoogleTranslateError(msg, tts=..., response=...)]: the exception
    object, unless building its message raises *)
Definition GoogleTranslateError_init
    (msg : option string) (tts : option T) (rsp : option Response) : res exn :=
  match msg with
  | Some (String c m) => Ret (GoogleTranslateError (Some (String c m)))
  | _ =>
      match tts with
      | Some tts =>
          LET m <- infer_msg tts rsp IN Ret (GoogleTranslateError (Some m))
      | None => Ret (GoogleTranslateError None)
      end
  end.

End Exceptions.

(** ** translate.py *)

(** The client object built by [GoogleTranslate.__init__]. *)
Record GoogleTranslate : Type := {
  proxies : list (string * string);
  url_suffix : string;
  base_url : string;
  url : string;
  timeout : Z;
  headers : list (string * string)
}.

(** The class sets neither [lang_check] nor [lang]. *)
#[global] Instance GoogleTranslate_tts : TTSLike GoogleTranslate :=
  {| lang_check := fun _ => None; lang := fun _ => None |}.

Section Client.

(** library functions *)
Variable json_loads : string -> option pyval.     (* None: JSONDecodeError *)
Variable decode_utf8 : string -> option string.   (* None: UnicodeDecodeError *)
(** the backend behind [session.post(url, data, timeout)] *)
Variable post : string -> string -> Z -> post_outcome.
(** constants.py and uas.py *)
Variable GOOGLE_TTS_RPC : list string.
Variable LANGUAGES : gmap string string.
Variable URLS_SUFFIX : list string.
Variable URL_SUFFIX_DEFAULT : string.
Variable USER_AGENTS : list string.

(** [json.loads(v)] *)
Definition loads (v : pyval) : res pyval :=
  match v with
  | PStr s =>
      match json_loads s with
      | Some x => Ret x
      | None => Raise JSONDecodeError
      end
  | _ => Raise TypeError
  end.

(** [line.decode("utf-8")] *)
Definition decode (line : string) : res string :=
  match decode_utf8 line with
  | Some s => Ret s
  | None => Raise UnicodeDecodeError
  end.

(** [self.session.post(url=..., data=..., timeout=...)] *)
Definition session_post (url data : string) (timeout : Z) : run Response :=
  DO _ <- emit (SessionPost url data timeout) IN
  lift match post url data timeout with
       | PostResponse r => Ret r
       | PostConnectTimeout => Raise ConnectTimeout
       | PostRequestException => Raise RequestException
       end.

Definition _rq_headers (rnd : nat) (base_url : string) : res (list (string * string)) :=
  LET ua <- random_choice rnd USER_AGENTS IN
  Ret [("Referer", base_url);
       ("User-Agent", ua);
       ("Content-Type", "application/x-www-form-urlencoded;charset=utf-8")].

(** [GoogleTranslate(url_suffix, timeout, proxies)] *)
Definition GoogleTranslate_init (rnd : nat) (url_suffix : string) (timeout : Z)
    (proxies : option (list (string * string))) : res GoogleTranslate :=
  let proxies := match proxies with None => [] | Some p => p end in
  let url_suffix :=
    if existsb (String.eqb url_suffix) URLS_SUFFIX then url_suffix
    else URL_SUFFIX_DEFAULT in
  let base_url := "https://translate.google." +:+ url_suffix in
  LET headers <- _rq_headers rnd base_url IN
  Ret {| proxies := proxies;
         url_suffix := url_suffix;
         base_url := base_url;
         url := base_url +:+ "/_/TranslateWebserverUi/data/batchexecute";
         timeout := timeout;
         headers := headers |}.

Definition _f_req_data (rnd : nat) (text : pyval) (src_lang tgt_lang : string)
  : res string :=
  LET stripped <- Py.strip text IN
  let parameter :=
    PList [PList [PStr stripped; PStr src_lang; PStr tgt_lang; PBool true];
           PList [PInt 1]] in
  let escaped_parameter := Py.json_dumps parameter in
  LET rpc_id <- random_choice rnd GOOGLE_TTS_RPC IN
  let rpc :=
    PList [PList [PList [PStr rpc_id; PStr escaped_parameter; PNone;
                         PStr "generic"]]] in
  let espaced_rpc := Py.json_dumps rpc in
  Ret ("f.req=" +:+ Py.quote espaced_rpc +:+ "&").

Definition _process_lang (lang : string) : run string :=
  if String.eqb lang "auto" then ret lang
  else if bool_decide (is_Some (LANGUAGES !! lang)) then ret lang
  else
    DO _ <- warning ("lang=" +:+ Py.repr_str lang
                       +:+ " not supported, will default to 'auto'") IN
    ret "auto".

(** [GOOGLE_TTS_RPC[0]] *)
Definition marker : res string :=
  match nth_error GOOGLE_TTS_RPC 0 with
  | Some m => Ret m
  | None => Raise IndexError
  end.

(** the loop [for sentence in sentences: ... translate_text += ...] *)
Fixpoint concat_sentences (translate_text : string) (sentences : list pyval)
  : res string :=
  match sentences with
  | [] => Ret translate_text
  | sentence :: rest =>
      LET sentence <- Py.getitem sentence 0 IN
      LET piece <- Py.strip sentence IN
      concat_sentences (translate_text +:+ piece +:+ " ") rest
  end.

(** the loop [for i in response: sentences.append(i[0])] *)
Fixpoint first_items (sentences : list pyval) (response : list pyval)
  : res (list pyval) :=
  match response with
  | [] => Ret sentences
  | i :: rest =>
      LET x <- Py.getitem i 0 IN
      first_items (sentences ++ [x])%list rest
  end.

(** [response_[0][0]] and [response_[1][0][0][1]] *)
Definition pronounce_src (response_ : pyval) : res pyval :=
  LET a <- Py.getitem response_ 0 IN Py.getitem a 0.

Definition pronounce_tgt (response_ : pyval) : res pyval :=
  LET a <- Py.getitem response_ 1 IN
  LET b <- Py.getitem a 0 IN
  LET c <- Py.getitem b 0 IN
  Py.getitem c 1.

(** the payload envelope of a line: both JSON layers decoded,
    [response_] in the source *)
Definition envelope (decoded_line : string) : res pyval :=
  LET response <- loads (PStr decoded_line) IN
  LET response <- Py.list_ response IN
  LET response <- Py.list_ response IN
  LET r0 <- Py.getitem response 0 IN
  LET r02 <- Py.getitem r0 2 IN
  LET response <- loads r02 IN
  Py.list_ response.

(** [response_[1][0]]: the translation array of a payload envelope *)
Definition translation_array (response_ : pyval) : res pyval :=
  LET r1 <- Py.getitem response_ 1 IN Py.getitem r1 0.

(** the shape dispatch on the translation array [response_[1][0]];
    [Ret None] when no branch returns *)
Definition dispatch (pronounce : bool) (response_ : pyval) : res (option pyval) :=
  LET response <- translation_array response_ IN
  LET n <- Py.len response IN
  if (n =? 1)%Z then
    LET r0 <- Py.getitem response 0 IN
    LET n0 <- Py.len r0 IN
    if (5 <? n0)%Z then
      LET sentences <- Py.getitem r0 5 IN
      LET sentences <- Py.iter sentences IN
      LET translate_text <- concat_sentences "" sentences IN
      if negb pronounce then Ret (Some (PStr translate_text))
      else
        LET src <- pronounce_src response_ IN
        LET tgt <- pronounce_tgt response_ IN
        Ret (Some (PList [PStr translate_text; src; tgt]))
    else
      LET sentences <- Py.getitem r0 0 IN
      if pronounce then Ret (Some (PList [sentences; PNone; PNone]))
      else Ret (Some sentences)
  else if (n =? 2)%Z then
    LET items <- Py.iter response IN
    LET sentences <- first_items [] items IN
    if negb pronounce then Ret (Some (PList sentences))
    else
      LET src <- pronounce_src response_ IN
      LET tgt <- pronounce_tgt response_ IN
      Ret (Some (PList [PList sentences; src; tgt]))
  else Ret None.

(** the body of the inner [try] of [translate] on one matching line *)
Definition translate_line (pronounce : bool) (decoded_line : string)
  : res (option pyval) :=
  LET response_ <- envelope decoded_line IN
  dispatch pronounce response_.

(** [for line in r.iter_lines(...)] of [translate] *)
Fixpoint translate_lines (pronounce : bool) (ls : list string)
  : res (option pyval) :=
  match ls with
  | [] => Ret None
  | line :: rest =>
      LET decoded_line <- decode line IN
      LET m <- marker IN
      if Str.contains m decoded_line then
        LET found <- translate_line pronounce decoded_line IN
        match found with
        | Some v => Ret (Some v)
        | None => translate_lines pronounce rest
        end
      else translate_lines pronounce rest
  end.

(** [raise GoogleTranslateError(tts=self, response=rsp)] *)
Definition raise_error {A} (self : GoogleTranslate) (rsp : option Response)
  : res A :=
  LET e <- GoogleTranslateError_init None (Some self) rsp IN Raise e.

(** the [except] clauses of [translate]; [r] is unbound when
    [session.post] itself raised *)
Definition translate_except {A} (self : GoogleTranslate) (r : option Response)
    (e : exn) : res A :=
  match e with
  | ConnectTimeout => Raise e
  | HTTPError =>
      match r with
      | Some r => raise_error self (Some r)
      | None => Raise UnboundLocalError
      end
  | RequestException => raise_error self None
  | _ => Raise e
  end.

Definition translate (self : GoogleTranslate) (rnd : nat) (text : pyval)
    (source_lang target_lang : string) (pronounce : bool) : run pyval :=
  let text := Py.str text in
  if (5000 <=? Str.len text)%Z then
    DO _ <- warning "GoogleTranslate can only translate text with less than 5000 characters" IN
    ret PNone
  else if (Str.len text =? 0)%Z then
    DO _ <- warning "Nothing to translate: len(text)=0" IN
    ret (PStr "")
  else
    DO src_lang <- _process_lang source_lang IN
    DO tgt_lang <- _process_lang target_lang IN
    DO f_req_data <- lift (_f_req_data rnd (PStr text) src_lang tgt_lang) IN
    match session_post (url self) f_req_data (timeout self) with
    | (t, Raise e) => (t, translate_except self None e)
    | (t, Ret r) =>
        (t, match
              (LET found <- translate_lines pronounce (lines r) IN
               match found with
               | Some v => Ret v
               | None => LET _ <- raise_for_status r IN Ret PNone
               end)
            with
            | Ret v => Ret v
            | Raise e => translate_except self (Some r) e
            end)
    end.

(** the detected code of a line, read at [response[0][2]] after both
    JSON layers are decoded *)
Definition detected_code (decoded_line : string) : res pyval :=
  LET response <- loads (PStr decoded_line) IN
  LET r0 <- Py.getitem response 0 IN
  LET r02 <- Py.getitem r0 2 IN
  LET response <- loads r02 IN
  LET d0 <- Py.getitem response 0 IN
  Py.getitem d0 2.

(** the inner [try] of [detect] on one matching line *)
Definition detect_line (decoded_line : string) : res string :=
  LET detected_lang <- detected_code decoded_line IN
  Py.lower detected_lang.

(** [{detected_lang: LANGUAGES[detected_lang]}] *)
Definition language_entry (detected_lang : string) : res (gmap string string) :=
  match LANGUAGES !! detected_lang with
  | Some name => Ret {[ detected_lang := name ]}
  | None => Raise (KeyError (PStr detected_lang))
  end.

(** [for line in r.iter_lines(...)] of [detect] *)
Fixpoint detect_lines (ls : list string) : res (option (gmap string string)) :=
  match ls with
  | [] => Ret None
  | line :: rest =>
      LET decoded_line <- decode line IN
      LET m <- marker IN
      if Str.contains m decoded_line then
        LET detected_lang <- detect_line decoded_line IN
        LET d <- language_entry detected_lang IN
        Ret (Some d)
      else detect_lines rest
  end.

(** the [except] clauses of [detect] *)
Definition detect_except {A} (self : GoogleTranslate) (r : option Response)
    (e : exn) : res A :=
  match e with
  | HTTPError =>
      match r with
      | Some r => raise_error self (Some r)
      | None => Raise UnboundLocalError
      end
  | ConnectTimeout | RequestException => raise_error self None
  | _ => Raise e
  end.

(** [None] in the result is Python's [None] *)
Definition detect (self : GoogleTranslate) (rnd : nat) (text : pyval)
  : run (option (gmap string string)) :=
  DO n <- lift (Py.len text) IN
  if (5000 <=? n)%Z then
    DO _ <- warning "GoogleTranslate can only detect text with less than 5000 characters" IN
    ret None
  else if (n =? 0)%Z then
    DO _ <- warning "Nothing to detact: len(text)=0" IN
    ret None
  else
    DO f_req_data <- lift (_f_req_data rnd text "auto" "auto") IN
    match session_post (url self) f_req_data (timeout self) with
    | (t, Raise e) => (t, detect_except self None e)
    | (t, Ret r) =>
        (t, match
              (LET found <- detect_lines (lines r) IN
               match found with
               | Some d => Ret (Some d)
               | None => LET _ <- raise_for_status r IN Ret None
               end)
            with
            | Ret v => Ret v
            | Raise e => detect_except self (Some r) e
            end)
    end.

(** The line selection as the specification words it: the first
    line, in order, whose decoded text contains the marker [m], with
    the lines that follow it; [Ret None] when no line contains it.
    Decoding a line on the way may raise. *)
Fixpoint select_line (m : string) (ls : list string)
  : res (option (string * list string)) :=
  match ls with
  | [] => Ret None
  | line :: rest =>
      LET decoded_line <- decode line IN
      if Str.contains m decoded_line then Ret (Some (decoded_line, rest))
      else select_line m rest
  end.

(** no line of [ls] contains [m] (and every line decodes) *)
Definition no_marker_line (m : string) (ls : list string) : Prop :=
  Forall (fun line => exists d, decode line = Ret d /\ Str.contains m d = false) ls.

End Client.

(** ** Concrete backends, tables and payloads for the examples *)

Module Fixture.

(** a backend that answers every request with [r] *)
Definition answers (r : Response) : string -> string -> Z -> post_outcome :=
  fun _ _ _ => PostResponse r.

Definition RPC : list string := ["MkEWBc"].

Definition languages : gmap string string :=
  {[ "en" := "english"; "es" := "spanish" ]}.

Definition suffixes : list string := ["com"; "co.nz"].

Definition user_agents : list string := ["Mozilla/5.0 (X11; Linux x86_64)"].

(** the client that [GoogleTranslate()] builds *)
Definition client : GoogleTranslate :=
  {| proxies := [];
     url_suffix := "com";
     base_url := "https://translate.google.com";
     url := "https://translate.google.com/_/TranslateWebserverUi/data/batchexecute";
     timeout := 5;
     headers := [("Referer", "https://translate.google.com");
                 ("User-Agent", "Mozilla/5.0 (X11; Linux x86_64)");
                 ("Content-Type", "application/x-www-form-urlencoded;charset=utf-8")] |}.

(** a response line carrying [payload] for the procedure [rpc]: the
    payload is JSON inside a JSON string of the outer envelope *)
Definition wire (rpc : string) (payload : pyval) : string :=
  Py.json_dumps
    (PList [PList [PStr "wrb.fr"; PStr rpc; PStr (Py.json_dumps payload);
                   PNone; PNone; PNone; PStr "generic"]]).

Definition ok (ls : list string) : Response :=
  {| status_code := 200; reason := "OK"; lines := ls |}.

Definition status (code : Z) (why : string) : Response :=
  {| status_code := code; reason := why; lines := [")]}'"] |}.

(** payload envelopes: [element] is the single element of the
    translation array *)
Definition single (element : pyval) : pyval :=
  PList [PList [PNone; PNone; PStr "en"];
         PList [PList [element]; PStr "es"; PInt 1; PStr "en"];
         PStr "en"].

Definition sentence_element (fragments : list pyval) : pyval :=
  PList [PNone; PNone; PNone; PBool true; PNone; PList fragments].

Definition hola : pyval :=
  single (sentence_element [PList [PStr "Hola"; PStr " "]; PList [PStr "mundo"]]).

Definition no_fragments : pyval := single (sentence_element []).

(** a sentence with both pronunciations *)
Definition spoken : pyval :=
  PList [PList [PStr "heh-LOH"; PNone; PStr "en"];
         PList [PList [PList [PNone; PStr "OH-lah"; PNone; PBool true; PNone;
                              PList [PList [PStr "Hola"; PNone]]]];
                PStr "es"];
         PStr "en"].

Definition bare_url : pyval := single (PList [PStr "https://example.com"]).

Definition pair : pyval :=
  PList [PList [PStr "ni hao"; PNone; PStr "zh"];
         PList [PList [PList [PStr "hello"; PNone];
                       PList [PStr "hi"; PStr "hai"]];
                PStr "en"];
         PStr "zh"].

(** two candidates, both pronunciations given *)
Definition pair_spoken : pyval :=
  PList [PList [PStr "ni hao"; PNone; PStr "zh"];
         PList [PList [PList [PStr "hello"; PStr "heh-LOH"];
                       PList [PStr "hi"; PStr "hai"]];
                PStr "en"];
         PStr "zh"].

(** a sentence whose first branch has no position 0, and one whose
    first branch is null *)
Definition no_source_slot : pyval :=
  PList [PList [];
         PList [PList [sentence_element [PList [PStr "Hola"]; PList [PStr "mundo"]]];
                PStr "es"];
         PStr "en"].

Definition null_first_branch : pyval :=
  PList [PNone;
         PList [PList [sentence_element [PList [PStr "Hola"]; PList [PStr "mundo"]]];
                PStr "es"];
         PStr "en"].

Definition triple : pyval :=
  PList [PList [PNone];
         PList [PList [PList [PStr "a"]; PList [PStr "b"]; PList [PStr "c"]]]].

Definition detection (code : string) : pyval :=
  PList [PList [PNone; PNone; PStr code]].

Definition body (line : string) : list string := [")]}'"; ""; line].

(** a line that names the procedure and is not JSON, and a line that
    is not UTF-8 *)
Definition garbage : string := "MkEWBc, but no JSON".

Definition not_utf8 : string := String (ascii_of_nat 255) EmptyString.

(** backends that do not answer *)
Definition times_out : string -> string -> Z -> post_outcome :=
  fun _ _ _ => PostConnectTimeout.

Definition fails : string -> string -> Z -> post_outcome :=
  fun _ _ _ => PostRequestException.

Definition long_text : string :=
  string_of_list_ascii (List.repeat (ascii_of_nat 97) 5000).

(** an object that carries the two attributes [infer_msg] reads *)
Record tts_stub : Type := { stub_lang_check : pyval; stub_lang : pyval }.

#[global] Instance tts_stub_tts : TTSLike tts_stub :=
  {| lang_check := fun o => Some (stub_lang_check o);
     lang := fun o => Some (stub_lang o) |}.

End Fixture.

(** * Properties *)

Lemma outcome_bind {A B} (m : run A) (k : A -> run B) :
  outcome (DO x <- m IN k x) = LET x <- outcome m IN outcome (k x).
Proof.
  destruct m as [t [a | e]]; cbn; [ | reflexivity ].
  destruct (k a); reflexivity.
Qed.

Lemma trace_bind_ret {A B} (m : run A) (k : A -> run B) (a : A) :
  outcome m = Ret a ->
  trace (DO x <- m IN k x) = (trace m ++ trace (k a))%list.
Proof.
  destruct m as [t [a' | e]]; cbn; [ | discriminate ].
  intros [= ->]. destruct (k a); reflexivity.
Qed.

Lemma random_choice_total {A} (rnd : nat) (seq : list A) (x : A) :
  nth_error seq 0 = Some x ->
  exists y, random_choice rnd seq = Ret y /\ In y seq.
Proof.
  intros H0. unfold random_choice.
  assert (Hlen : List.length seq <> 0) by (destruct seq; [ discriminate | cbn; lia ]).
  pose proof (Nat.mod_upper_bound rnd _ Hlen) as Hlt.
  destruct (nth_error seq (rnd mod List.length seq)) as [y | ] eqn:E.
  - exists y. split; [ reflexivity | eapply nth_error_In; eassumption ].
  - apply nth_error_None in E. lia.
Qed.

Lemma random_choice_first {A} (rnd : nat) (seq : list A) (x : A) :
  nth_error seq 0 = Some x ->
  rnd mod List.length seq = 0 ->
  random_choice rnd seq = Ret x.
Proof. intros H0 Hm. unfold random_choice. rewrite Hm, H0. reflexivity. Qed.

(** A text is a valid request text when it is not empty and shorter
    than 5000 characters. *)
Lemma guards_pass (n : Z) :
  (0 < n < 5000)%Z -> (5000 <=? n)%Z = false /\ (n =? 0)%Z = false.
Proof. intros H. split; [ apply Z.leb_gt | apply Z.eqb_neq ]; lia. Qed.

Section Properties.

Variable json_loads : string -> option pyval.
Variable decode_utf8 : string -> option string.
Variable GOOGLE_TTS_RPC : list string.
Variable LANGUAGES : gmap string string.

Lemma translate_lines_cons pronounce line rest :
  translate_lines json_loads decode_utf8 GOOGLE_TTS_RPC pronounce (line :: rest) =
    LET decoded_line <- decode decode_utf8 line IN
    LET m <- marker GOOGLE_TTS_RPC IN
    if Str.contains m decoded_line then
      LET found <- translate_line json_loads pronounce decoded_line IN
      match found with
      | Some v => Ret (Some v)
      | None => translate_lines json_loads decode_utf8 GOOGLE_TTS_RPC pronounce rest
      end
    else translate_lines json_loads decode_utf8 GOOGLE_TTS_RPC pronounce rest.
Proof. reflexivity. Qed.

Lemma detect_lines_cons line rest :
  detect_lines json_loads decode_utf8 GOOGLE_TTS_RPC LANGUAGES (line :: rest) =
    LET decoded_line <- decode decode_utf8 line IN
    LET m <- marker GOOGLE_TTS_RPC IN
    if Str.contains m decoded_line then
      LET detected_lang <- detect_line json_loads decoded_line IN
      LET d <- language_entry LANGUAGES detected_lang IN
      Ret (Some d)
    else detect_lines json_loads decode_utf8 GOOGLE_TTS_RPC LANGUAGES rest.
Proof. reflexivity. Qed.

Lemma select_line_cons m line rest :
  select_line decode_utf8 m (line :: rest) =
    LET decoded_line <- decode decode_utf8 line IN
    if Str.contains m decoded_line then Ret (Some (decoded_line, rest))
    else select_line decode_utf8 m rest.
Proof. reflexivity. Qed.

Lemma marker_first m :
  nth_error GOOGLE_TTS_RPC 0 = Some m -> marker GOOGLE_TTS_RPC = Ret m.
Proof. intros H. unfold marker. now rewrite H. Qed.

Lemma translate_line_envelope pronounce d env :
  envelope json_loads d = Ret env ->
  translate_line json_loads pronounce d = dispatch pronounce env.
Proof. intros H. unfold translate_line. now rewrite H. Qed.

Lemma detect_line_code d c :
  detected_code json_loads d = Ret c ->
  detect_line json_loads d = Py.lower c.
Proof. intros H. unfold detect_line. now rewrite H. Qed.

Local Abbreviation decode := (decode decode_utf8).
Local Abbreviation marker := (marker GOOGLE_TTS_RPC).
Local Abbreviation select_line := (select_line decode_utf8).
Local Abbreviation no_marker_line := (no_marker_line decode_utf8).
Local Abbreviation translate_line := (translate_line json_loads).
Local Abbreviation translate_lines :=
  (translate_lines json_loads decode_utf8 GOOGLE_TTS_RPC).
Local Abbreviation detect_line := (detect_line json_loads).
Local Abbreviation detect_lines :=
  (detect_lines json_loads decode_utf8 GOOGLE_TTS_RPC LANGUAGES).

(** [translate]'s loop tries the marker lines in order and stops at
    the first one that returns or raises. *)
Lemma translate_lines_select (m : string) (pronounce : bool) (ls : list string) :
  marker = Ret m ->
  translate_lines pronounce ls =
    LET sel <- select_line m ls IN
    match sel with
    | None => Ret None
    | Some (d, rest) =>
        LET found <- translate_line pronounce d IN
        match found with
        | Some v => Ret (Some v)
        | None => translate_lines pronounce rest
        end
    end.
Proof.
  intros Hm. induction ls as [ | line rest IH ]; [ reflexivity | ].
  rewrite translate_lines_cons, select_line_cons.
  destruct (decode line) as [d | e]; cbn [rbind]; [ | reflexivity ].
  rewrite Hm; cbn [rbind].
  destruct (Str.contains m d); [ reflexivity | exact IH ].
Qed.

(** [detect]'s loop uses the first marker line, whatever it holds. *)
Lemma detect_lines_select (m : string) (ls : list string) :
  marker = Ret m ->
  detect_lines ls =
    LET sel <- select_line m ls IN
    match sel with
    | None => Ret None
    | Some (d, _) =>
        LET detected_lang <- detect_line d IN
        LET entry <- language_entry LANGUAGES detected_lang IN
        Ret (Some entry)
    end.
Proof.
  intros Hm. induction ls as [ | line rest IH ]; [ reflexivity | ].
  rewrite detect_lines_cons, select_line_cons.
  destruct (decode line) as [d | e]; cbn [rbind]; [ | reflexivity ].
  rewrite Hm; cbn [rbind].
  destruct (Str.contains m d); [ reflexivity | exact IH ].
Qed.

Lemma select_line_none (m : string) (ls : list string) :
  no_marker_line m ls -> select_line m ls = Ret None.
Proof.
  induction 1 as [ | line rest (d & Hd & Hc) _ IH ]; [ reflexivity | ].
  rewrite select_line_cons, Hd; cbn [rbind]. rewrite Hc. exact IH.
Qed.

(** *** The request goes out, the body is scanned *)

Local Abbreviation translate_on r :=
  (translate json_loads decode_utf8 (Fixture.answers r) GOOGLE_TTS_RPC LANGUAGES).
Local Abbreviation detect_on r :=
  (detect json_loads decode_utf8 (Fixture.answers r) GOOGLE_TTS_RPC LANGUAGES).

Lemma process_lang_returns (lang : string) :
  exists l, outcome (_process_lang LANGUAGES lang) = Ret l.
Proof.
  unfold _process_lang.
  destruct (String.eqb lang "auto"); [ eexists; reflexivity | ].
  destruct (bool_decide _); eexists; reflexivity.
Qed.

Lemma f_req_data_returns (rnd : nat) (s src tgt m : string) :
  nth_error GOOGLE_TTS_RPC 0 = Some m ->
  exists data, _f_req_data GOOGLE_TTS_RPC rnd (PStr s) src tgt = Ret data.
Proof.
  intros Hm. unfold _f_req_data. cbn [Py.strip rbind].
  destruct (random_choice_total rnd _ _ Hm) as (y & -> & _).
  eexists; reflexivity.
Qed.

Lemma translate_except_other {A} self r (e : exn) :
  requests_exception e = false -> @translate_except A self r e = Raise e.
Proof. destruct e; cbn; intros; try reflexivity; discriminate. Qed.

Lemma detect_except_other {A} self r (e : exn) :
  requests_exception e = false -> @detect_except A self r e = Raise e.
Proof. destruct e; cbn; intros; try reflexivity; discriminate. Qed.

(** With a text that passes the guards and a backend that answers
    [r], the outcome of [translate] is that of its loop over the
    lines of [r], then of the status check. *)
Lemma translate_outcome self r rnd text src tgt pronounce m :
  (0 < Str.len (Py.str text) < 5000)%Z ->
  nth_error GOOGLE_TTS_RPC 0 = Some m ->
  outcome (translate_on r self rnd text src tgt pronounce) =
    match
      (LET found <- translate_lines pronounce (lines r) IN
       match found with
       | Some v => Ret v
       | None => LET _ <- raise_for_status r IN Ret PNone
       end)
    with
    | Ret v => Ret v
    | Raise e => translate_except self (Some r) e
    end.
Proof.
  intros Hlen Hm. unfold translate.
  destruct (guards_pass _ Hlen) as [-> ->].
  rewrite outcome_bind.
  destruct (process_lang_returns src) as [s ->]; cbn [rbind].
  rewrite outcome_bind.
  destruct (process_lang_returns tgt) as [t ->]; cbn [rbind].
  rewrite outcome_bind.
  destruct (f_req_data_returns rnd (Py.str text) s t m Hm) as [data Hd].
  unfold lift at 1. cbn [outcome snd]. rewrite Hd; cbn [rbind].
  reflexivity.
Qed.

Lemma translate_served_ret self r rnd text src tgt pronounce m d rest v :
  (0 < Str.len (Py.str text) < 5000)%Z ->
  nth_error GOOGLE_TTS_RPC 0 = Some m ->
  select_line m (lines r) = Ret (Some (d, rest)) ->
  translate_line pronounce d = Ret (Some v) ->
  outcome (translate_on r self rnd text src tgt pronounce) = Ret v.
Proof.
  intros Hlen Hm Hsel Hline.
  rewrite (translate_outcome _ _ _ _ _ _ _ m Hlen Hm).
  rewrite (translate_lines_select m) by now apply marker_first.
  rewrite Hsel; cbn [rbind]. rewrite Hline; reflexivity.
Qed.

Lemma translate_served_raise self r rnd text src tgt pronounce m d rest e :
  (0 < Str.len (Py.str text) < 5000)%Z ->
  nth_error GOOGLE_TTS_RPC 0 = Some m ->
  select_line m (lines r) = Ret (Some (d, rest)) ->
  translate_line pronounce d = Raise e ->
  requests_exception e = false ->
  outcome (translate_on r self rnd text src tgt pronounce) = Raise e.
Proof.
  intros Hlen Hm Hsel Hline He.
  rewrite (translate_outcome _ _ _ _ _ _ _ m Hlen Hm).
  rewrite (translate_lines_select m) by now apply marker_first.
  rewrite Hsel; cbn [rbind]. rewrite Hline; cbn [rbind].
  now apply translate_except_other.
Qed.

(** *** The shape dispatch *)

Lemma append_nil_r (s : string) : s +:+ "" = s.
Proof.
  induction s as [ | c s IH ]; [ reflexivity | ].
  change (String c (s +:+ "") = String c s). now rewrite IH.
Qed.

Lemma append_assoc (s1 s2 s3 : string) :
  (s1 +:+ s2) +:+ s3 = s1 +:+ (s2 +:+ s3).
Proof.
  induction s1 as [ | c s1 IH ]; [ reflexivity | ].
  change (String c ((s1 +:+ s2) +:+ s3) = String c (s1 +:+ (s2 +:+ s3))).
  now rewrite IH.
Qed.

Lemma ends_with_space_app (a b : string) :
  Str.ends_with_space b = true -> Str.ends_with_space (a +:+ b) = true.
Proof.
  intros Hb. induction a as [ | c a IH ]; [ exact Hb | ].
  change (Str.ends_with_space (String c (a +:+ b)) = true).
  destruct (a +:+ b) eqn:E; [ discriminate IH | exact IH ].
Qed.

Lemma spaced_ends_with_space (pieces : list string) :
  pieces <> [] -> Str.ends_with_space (spaced pieces) = true.
Proof.
  induction pieces as [ | p ps IH ]; [ congruence | intros _ ].
  unfold spaced; cbn [List.map Str.concat]. fold (spaced ps).
  destruct ps as [ | q qs ].
  - cbn [spaced List.map Str.concat]. rewrite append_nil_r.
    now apply ends_with_space_app.
  - apply ends_with_space_app, IH. discriminate.
Qed.

Lemma concat_sentences_spaced (fragments : list pyval) (pieces : list string) :
  first_elements fragments pieces ->
  forall acc, concat_sentences acc fragments = Ret (acc +:+ spaced pieces).
Proof.
  induction 1 as [ | f p fs ps Hf _ IH ]; intros acc.
  - cbn [concat_sentences]. unfold spaced; cbn [List.map Str.concat].
    now rewrite append_nil_r.
  - cbn [concat_sentences]. rewrite Hf; cbn [rbind Py.strip].
    rewrite IH. unfold spaced; cbn [List.map Str.concat].
    now rewrite !append_assoc.
Qed.

Lemma getitem_error (v : pyval) (i : nat) (e : exn) :
  Py.getitem v i = Raise e -> requests_exception e = false.
Proof.
  destruct v; cbn; try (intros [= <-]; reflexivity).
  - destruct (String.get i s); [ discriminate | intros [= <-]; reflexivity ].
  - destruct (nth_error l i); [ discriminate | intros [= <-]; reflexivity ].
Qed.

Lemma pronounce_src_error (env : pyval) (e : exn) :
  pronounce_src env = Raise e -> requests_exception e = false.
Proof.
  unfold pronounce_src. destruct (Py.getitem env 0) eqn:E; cbn [rbind].
  - apply getitem_error.
  - intros [= <-]. eapply getitem_error; eassumption.
Qed.

Lemma pronounce_tgt_error (env : pyval) (e : exn) :
  pronounce_tgt env = Raise e -> requests_exception e = false.
Proof.
  unfold pronounce_tgt.
  destruct (Py.getitem env 1) as [a | ] eqn:E1; cbn [rbind];
    [ | intros [= <-]; eapply getitem_error; eassumption ].
  destruct (Py.getitem a 0) as [b | ] eqn:E2; cbn [rbind];
    [ | intros [= <-]; eapply getitem_error; eassumption ].
  destruct (Py.getitem b 0) as [c | ] eqn:E3; cbn [rbind];
    [ | intros [= <-]; eapply getitem_error; eassumption ].
  apply getitem_error.
Qed.

(** one element with more than five positions: the sentence loop *)
Lemma dispatch_sentence env element fragments pieces :
  translation_array env = Ret (PList [PList element]) ->
  (5 < Z.of_nat (List.length element))%Z ->
  nth_error element 5 = Some (PList fragments) ->
  first_elements fragments pieces ->
  dispatch false env = Ret (Some (PStr (spaced pieces))).
Proof.
  intros Harr Hlen H5 Hp. unfold dispatch. rewrite Harr.
  cbn [rbind Py.len List.length Z.of_nat Pos.of_succ_nat Z.eqb Pos.eqb].
  change (Py.getitem (PList [PList element]) 0) with (Ret (PList element)).
  cbn [rbind Py.len].
  apply Z.ltb_lt in Hlen. rewrite Hlen. unfold Py.getitem at 1. rewrite H5.
  cbn [rbind Py.iter].
  rewrite (concat_sentences_spaced _ _ Hp). reflexivity.
Qed.

(** one element with at most five positions: its position 0 *)
Lemma dispatch_bare env element n pronounce :
  translation_array env = Ret (PList [element]) ->
  Py.len element = Ret n ->
  (n <= 5)%Z ->
  dispatch pronounce env =
    LET text <- Py.getitem element 0 IN
    Ret (Some (if pronounce then PList [text; PNone; PNone] else text)).
Proof.
  intros Harr Hn Hle. unfold dispatch. rewrite Harr.
  cbn [rbind Py.len List.length Z.of_nat Pos.of_succ_nat Z.eqb Pos.eqb Py.getitem nth_error].
  rewrite Hn; cbn [rbind].
  apply Z.ltb_ge in Hle. rewrite Hle.
  destruct (Py.getitem element 0); cbn [rbind]; [ | reflexivity ].
  now destruct pronounce.
Qed.

(** two elements: their positions 0, in order *)
Lemma dispatch_pair env e1 e2 pronounce :
  translation_array env = Ret (PList [e1; e2]) ->
  dispatch pronounce env =
    LET a <- Py.getitem e1 0 IN
    LET b <- Py.getitem e2 0 IN
    if pronounce then
      LET psrc <- pronounce_src env IN
      LET ptgt <- pronounce_tgt env IN
      Ret (Some (PList [PList [a; b]; psrc; ptgt]))
    else Ret (Some (PList [a; b])).
Proof.
  intros Harr. unfold dispatch. rewrite Harr.
  cbn [rbind Py.len List.length Z.of_nat Pos.of_succ_nat Z.eqb Pos.eqb Py.iter first_items].
  destruct (Py.getitem e1 0); cbn [rbind]; [ | reflexivity ].
  destruct (Py.getitem e2 0); cbn [rbind app]; [ | reflexivity ].
  now destruct pronounce.
Qed.

(** *** What [translate] returns, shape by shape *)

(** C1 (amended).  When the first marker line of the response decodes
    to an envelope whose translation array has one element with more
    than five positions, [translate] (without pronunciation) takes
    position 5 as the list of fragments and returns the first element
    of each fragment, stripped and followed by one space, all
    concatenated.  The result ends with a space as soon as there is at
    least one fragment. *)
Theorem translate_single_sentence
    self r rnd text src tgt m d rest env element fragments pieces :
  (0 < Str.len (Py.str text) < 5000)%Z ->
  nth_error GOOGLE_TTS_RPC 0 = Some m ->
  select_line m (lines r) = Ret (Some (d, rest)) ->
  envelope json_loads d = Ret env ->
  translation_array env = Ret (PList [PList element]) ->
  (5 < Z.of_nat (List.length element))%Z ->
  nth_error element 5 = Some (PList fragments) ->
  first_elements fragments pieces ->
  outcome (translate_on r self rnd text src tgt false) = Ret (PStr (spaced pieces))
  /\ (pieces <> [] -> Str.ends_with_space (spaced pieces) = true).
Proof.
  intros Hlen Hm Hsel Henv Harr Hn H5 Hp. split.
  - eapply translate_served_ret; try eassumption.
    rewrite (translate_line_envelope _ _ _ Henv).
    eapply dispatch_sentence; eassumption.
  - apply spaced_ends_with_space.
Qed.

(** C3.  When the first marker line of the response decodes to an
    envelope whose translation array has one element with at most five
    positions, [translate] reads position 0 of that element and
    returns it as it is, or, with [pronounce], the triple of it, null
    and null.  (An element without position 0 makes that read, and so
    [translate], raise.) *)
Theorem translate_bare_url
    self r rnd text src tgt pronounce m d rest env element n :
  (0 < Str.len (Py.str text) < 5000)%Z ->
  nth_error GOOGLE_TTS_RPC 0 = Some m ->
  select_line m (lines r) = Ret (Some (d, rest)) ->
  envelope json_loads d = Ret env ->
  translation_array env = Ret (PList [element]) ->
  Py.len element = Ret n ->
  (n <= 5)%Z ->
  outcome (translate_on r self rnd text src tgt pronounce) =
    LET bare <- Py.getitem element 0 IN
    Ret (if pronounce then PList [bare; PNone; PNone] else bare).
Proof.
  intros Hlen Hm Hsel Henv Harr Hn Hle.
  assert (Hline : translate_line pronounce d =
                  LET bare <- Py.getitem element 0 IN
                  Ret (Some (if pronounce then PList [bare; PNone; PNone] else bare))).
  { rewrite (translate_line_envelope _ _ _ Henv).
    eapply dispatch_bare; eassumption. }
  destruct (Py.getitem element 0) as [bare | e] eqn:E; cbn [rbind] in *.
  - eapply translate_served_ret; eassumption.
  - eapply translate_served_raise; try eassumption.
    eapply getitem_error; eassumption.
Qed.

(** the target pronunciation [response_[1][0][0][1]] is position 1 of
    the first element of the translation array *)
Lemma pronounce_tgt_first_element env e1 others :
  translation_array env = Ret (PList (e1 :: others)) ->
  pronounce_tgt env = Py.getitem e1 1.
Proof.
  unfold translation_array, pronounce_tgt.
  destruct (Py.getitem env 1) as [a | ]; cbn [rbind]; [ | discriminate ].
  intros ->. reflexivity.
Qed.

(** C4.  When the first marker line of the response decodes to an
    envelope whose translation array has two elements, [translate]
    returns the list of their positions 0, in the order of the
    response; with [pronounce] it returns the triple of that list, the
    source pronunciation read at [response_[0][0]] and the target
    pronunciation read at [response_[1][0][0][1]], which is position 1
    of the first of the two elements. *)
Theorem translate_two_candidates
    self r rnd text src tgt pronounce m d rest env e1 e2 :
  (0 < Str.len (Py.str text) < 5000)%Z ->
  nth_error GOOGLE_TTS_RPC 0 = Some m ->
  select_line m (lines r) = Ret (Some (d, rest)) ->
  envelope json_loads d = Ret env ->
  translation_array env = Ret (PList [e1; e2]) ->
  outcome (translate_on r self rnd text src tgt pronounce) =
    LET a <- Py.getitem e1 0 IN
    LET b <- Py.getitem e2 0 IN
    if pronounce then
      LET branch <- Py.getitem env 0 IN
      LET psrc <- Py.getitem branch 0 IN
      LET ptgt <- Py.getitem e1 1 IN
      Ret (PList [PList [a; b]; psrc; ptgt])
    else Ret (PList [a; b]).
Proof.
  intros Hlen Hm Hsel Henv Harr.
  pose proof (dispatch_pair env e1 e2 pronounce Harr) as Hd.
  assert (Hline : translate_line pronounce d = dispatch pronounce env).
  { now apply translate_line_envelope. }
  rewrite Hd in Hline. clear Hd.
  rewrite (pronounce_tgt_first_element env e1 [e2] Harr) in Hline.
  unfold pronounce_src in Hline.
  destruct (Py.getitem e1 0) as [a | e] eqn:Ea; cbn [rbind] in *;
    [ | eapply translate_served_raise; try eassumption;
        eapply getitem_error; eassumption ].
  destruct (Py.getitem e2 0) as [b | e] eqn:Eb; cbn [rbind] in *;
    [ | eapply translate_served_raise; try eassumption;
        eapply getitem_error; eassumption ].
  destruct pronounce; [ | eapply translate_served_ret; eassumption ].
  destruct (Py.getitem env 0) as [branch | e] eqn:E0; cbn [rbind] in *;
    [ | eapply translate_served_raise; try eassumption;
        eapply getitem_error; eassumption ].
  destruct (Py.getitem branch 0) as [psrc | e] eqn:Es; cbn [rbind] in *;
    [ | eapply translate_served_raise; try eassumption;
        eapply getitem_error; eassumption ].
  destruct (Py.getitem e1 1) as [ptgt | e] eqn:Et; cbn [rbind] in *;
    [ | eapply translate_served_raise; try eassumption;
        eapply getitem_error; eassumption ].
  eapply translate_served_ret; eassumption.
Qed.

(** in the sentence shape and in the two-candidate shape, [dispatch]
    with pronunciation returns what it returns without, then reads the
    two pronunciation positions *)
Lemma dispatch_reads_pronunciations env arr t :
  translation_array env = Ret arr ->
  (exists element n0,
      arr = PList [element] /\ Py.len element = Ret n0 /\ (5 < n0)%Z)
  \/ Py.len arr = Ret 2%Z ->
  dispatch false env = Ret (Some t) ->
  dispatch true env =
    LET psrc <- pronounce_src env IN
    LET ptgt <- pronounce_tgt env IN
    Ret (Some (PList [t; psrc; ptgt])).
Proof.
  intros Harr Hshape. unfold dispatch. rewrite Harr; cbn [rbind].
  destruct Hshape as [(element & n0 & -> & Hn0 & Hgt) | Hlen2].
  - cbn [rbind Py.len List.length Z.of_nat Pos.of_succ_nat Z.eqb Pos.eqb].
    change (Py.getitem (PList [element]) 0) with (Ret element).
    cbn [rbind]. rewrite Hn0; cbn [rbind].
    apply Z.ltb_lt in Hgt. rewrite Hgt.
    destruct (Py.getitem element 5) as [s5 | ]; cbn [rbind]; [ | discriminate ].
    destruct (Py.iter s5) as [items | ]; cbn [rbind]; [ | discriminate ].
    destruct (concat_sentences "" items) as [txt | ]; cbn [rbind negb];
      [ | discriminate ].
    now intros [= <-].
  - rewrite Hlen2; cbn [rbind Z.eqb Pos.eqb].
    destruct (Py.iter arr) as [items | ]; cbn [rbind]; [ | discriminate ].
    destruct (first_items [] items) as [xs | ]; cbn [rbind negb]; [ | discriminate ].
    now intros [= <-].
Qed.

(** C5 (amended).  With [pronounce], when the translation is found in
    the sentence shape or in the two-candidate shape, [translate]
    reads the source pronunciation at [response_[0][0]] and the target
    pronunciation at [response_[1][0][0][1]] and returns the triple of
    the translation and the two values as they are: a value that is
    null at its position comes back as null and is no error.  When a
    position on the way is missing, [translate] raises the error of
    that read. *)
Theorem translate_pronunciation_positions
    self r rnd text src tgt m d rest env arr t :
  (0 < Str.len (Py.str text) < 5000)%Z ->
  nth_error GOOGLE_TTS_RPC 0 = Some m ->
  select_line m (lines r) = Ret (Some (d, rest)) ->
  envelope json_loads d = Ret env ->
  translation_array env = Ret arr ->
  (exists element n0,
      arr = PList [element] /\ Py.len element = Ret n0 /\ (5 < n0)%Z)
  \/ Py.len arr = Ret 2%Z ->
  dispatch false env = Ret (Some t) ->
  outcome (translate_on r self rnd text src tgt true) =
    LET branch <- Py.getitem env 0 IN
    LET psrc <- Py.getitem branch 0 IN
    LET second <- Py.getitem env 1 IN
    LET array <- Py.getitem second 0 IN
    LET first <- Py.getitem array 0 IN
    LET ptgt <- Py.getitem first 1 IN
    Ret (PList [t; psrc; ptgt]).
Proof.
  intros Hlen Hm Hsel Henv Harr Hshape Hd.
  pose proof (dispatch_reads_pronunciations env arr t Harr Hshape Hd) as Hp.
  assert (Hline : translate_line true d = dispatch true env).
  { now apply translate_line_envelope. }
  rewrite Hp in Hline. clear Hp.
  unfold pronounce_src, pronounce_tgt in Hline.
  destruct (Py.getitem env 0) as [branch | e] eqn:E0; cbn [rbind] in *;
    [ | eapply translate_served_raise; try eassumption;
        eapply getitem_error; eassumption ].
  destruct (Py.getitem branch 0) as [psrc | e] eqn:Es; cbn [rbind] in *;
    [ | eapply translate_served_raise; try eassumption;
        eapply getitem_error; eassumption ].
  destruct (Py.getitem env 1) as [second | e] eqn:E1; cbn [rbind] in *;
    [ | eapply translate_served_raise; try eassumption;
        eapply getitem_error; eassumption ].
  destruct (Py.getitem second 0) as [array | e] eqn:E2; cbn [rbind] in *;
    [ | eapply translate_served_raise; try eassumption;
        eapply getitem_error; eassumption ].
  destruct (Py.getitem array 0) as [first | e] eqn:E3; cbn [rbind] in *;
    [ | eapply translate_served_raise; try eassumption;
        eapply getitem_error; eassumption ].
  destruct (Py.getitem first 1) as [ptgt | e] eqn:E4; cbn [rbind] in *;
    [ | eapply translate_served_raise; try eassumption;
        eapply getitem_error; eassumption ].
  eapply translate_served_ret; eassumption.
Qed.

(** *** The marker and the request *)

Lemma prefix_app (x b : string) : String.prefix x (x +:+ b) = true.
Proof.
  induction x as [ | c x IH ]; [ now destruct b | ].
  change (String.prefix (String c x) (String c (x +:+ b)) = true).
  cbn [String.prefix]. destruct (ascii_dec c c); [ exact IH | congruence ].
Qed.

Lemma contains_prefix (x s : string) :
  String.prefix x s = true -> Str.contains x s = true.
Proof. intros H. destruct s; cbn [Str.contains]; now rewrite H. Qed.

Lemma contains_app_r (x a b : string) :
  Str.contains x b = true -> Str.contains x (a +:+ b) = true.
Proof.
  intros H. induction a as [ | c a IH ]; [ exact H | ].
  change (Str.contains x (String c (a +:+ b)) = true).
  cbn [Str.contains]. rewrite IH. apply orb_true_r.
Qed.

Lemma prefix_app_l (x s b : string) :
  String.prefix x s = true -> String.prefix x (s +:+ b) = true.
Proof.
  revert s. induction x as [ | k x IHx ]; intros s H; [ now destruct (s +:+ b) | ].
  destruct s as [ | k' s ]; [ discriminate H | ].
  change (String.prefix (String k x) (String k' (s +:+ b)) = true).
  cbn [String.prefix] in *. destruct (ascii_dec k k'); [ now apply IHx | discriminate ].
Qed.

Lemma contains_app_l (x a b : string) :
  Str.contains x a = true -> Str.contains x (a +:+ b) = true.
Proof.
  induction a as [ | c a IH ]; intros H.
  - destruct x; [ now destruct b | discriminate H ].
  - change (Str.contains x (String c (a +:+ b)) = true).
    cbn [Str.contains] in *. apply orb_true_iff in H as [H | H].
    + apply orb_true_iff. left.
      change (String c (a +:+ b)) with (String c a +:+ b).
      now apply prefix_app_l.
    + rewrite (IH H). apply orb_true_r.
Qed.

Lemma quote_app (a b : string) : Py.quote (a +:+ b) = Py.quote a +:+ Py.quote b.
Proof.
  induction a as [ | c a IH ]; [ reflexivity | ].
  change (Py.quote_char c +:+ Py.quote (a +:+ b)
          = (Py.quote_char c +:+ Py.quote a) +:+ Py.quote b).
  now rewrite IH, append_assoc.
Qed.

(** The request carries the RPC id that [random.choice] drew, quoted
    as a JSON string and percent-encoded. *)
Lemma f_req_data_embeds_choice rnd text src tgt data :
  _f_req_data GOOGLE_TTS_RPC rnd text src tgt = Ret data ->
  exists rpc_id,
    random_choice rnd GOOGLE_TTS_RPC = Ret rpc_id
    /\ Str.contains (Py.quote (Py.json_str rpc_id)) data = true.
Proof.
  unfold _f_req_data.
  destruct (Py.strip text) as [stripped | ]; cbn [rbind]; [ | discriminate ].
  destruct (random_choice rnd GOOGLE_TTS_RPC) as [rpc_id | ]; cbn [rbind];
    [ | discriminate ].
  intros [= <-]. exists rpc_id. split; [ reflexivity | ].
  apply (contains_app_r _ "f.req="), contains_app_l.
  cbn [Py.json_dumps List.map Str.join].
  rewrite !quote_app.
  do 3 (apply (contains_app_r _ (Py.quote "[")); apply contains_app_l).
  apply contains_prefix, prefix_app.
Qed.

(** C2 (amended).  Both loops scan for [GOOGLE_TTS_RPC[0]], the first
    entry of the candidate list.  [detect] parses the first line that
    contains it.  [translate] tries the lines that contain it in
    order: the first one returns or raises unless its translation
    array has a length other than 1 or 2, in which case the scan goes
    on with the lines after it.  When no line contains the marker
    neither loop has a parsed result.  The request carries the id that
    [random.choice] drew, which is the marker when the draw is the
    first entry. *)
Theorem marker_line_selection (m : string) (pronounce : bool) (ls : list string) :
  nth_error GOOGLE_TTS_RPC 0 = Some m ->
  detect_lines ls =
    (LET sel <- select_line m ls IN
     match sel with
     | None => Ret None
     | Some (d, _) =>
         LET detected_lang <- detect_line d IN
         LET entry <- language_entry LANGUAGES detected_lang IN
         Ret (Some entry)
     end)
  /\ translate_lines pronounce ls =
    (LET sel <- select_line m ls IN
     match sel with
     | None => Ret None
     | Some (d, rest) =>
         LET found <- translate_line pronounce d IN
         match found with
         | Some v => Ret (Some v)
         | None => translate_lines pronounce rest
         end
     end)
  /\ (no_marker_line m ls ->
      translate_lines pronounce ls = Ret None /\ detect_lines ls = Ret None)
  /\ (forall rnd text src tgt data,
        _f_req_data GOOGLE_TTS_RPC rnd text src tgt = Ret data ->
        exists rpc_id,
          random_choice rnd GOOGLE_TTS_RPC = Ret rpc_id
          /\ Str.contains (Py.quote (Py.json_str rpc_id)) data = true
          /\ (rnd mod List.length GOOGLE_TTS_RPC = 0 -> rpc_id = m)).
Proof.
  intros Hm. pose proof (marker_first m Hm) as Hmk.
  split; [ now apply detect_lines_select | ].
  split; [ now apply translate_lines_select | ].
  split.
  - intros Hnone. apply select_line_none in Hnone.
    rewrite (translate_lines_select m), (detect_lines_select m), Hnone by assumption.
    now split.
  - intros rnd text src tgt data Hdata.
    destruct (f_req_data_embeds_choice _ _ _ _ _ Hdata) as (rpc_id & Hc & Hin).
    exists rpc_id. repeat split; try assumption.
    intros Hz. rewrite (random_choice_first rnd _ m Hm Hz) in Hc. congruence.
Qed.

(** *** The guards *)

(** C7.  A text of 5000 characters or more makes [translate] and
    [detect] log a warning and return null at once; an empty text
    makes [translate] return the empty string and [detect] return
    null.  None of the four raises, and no request is posted. *)
Theorem guards_short_circuit post self rnd (s : string) src tgt pronounce :
  ((5000 <= Str.len s)%Z ->
     translate json_loads decode_utf8 post GOOGLE_TTS_RPC LANGUAGES
               self rnd (PStr s) src tgt pronounce
     = ([LogWarning "GoogleTranslate can only translate text with less than 5000 characters"],
        Ret PNone)
     /\ detect json_loads decode_utf8 post GOOGLE_TTS_RPC LANGUAGES self rnd (PStr s)
        = ([LogWarning "GoogleTranslate can only detect text with less than 5000 characters"],
           Ret None))
  /\ (s = "" ->
     translate json_loads decode_utf8 post GOOGLE_TTS_RPC LANGUAGES
               self rnd (PStr s) src tgt pronounce
     = ([LogWarning "Nothing to translate: len(text)=0"], Ret (PStr ""))
     /\ detect json_loads decode_utf8 post GOOGLE_TTS_RPC LANGUAGES self rnd (PStr s)
        = ([LogWarning "Nothing to detact: len(text)=0"], Ret None))
  /\ ((5000 <= Str.len s)%Z \/ s = "" ->
     no_request (translate json_loads decode_utf8 post GOOGLE_TTS_RPC LANGUAGES
                           self rnd (PStr s) src tgt pronounce) = true
     /\ no_request (detect json_loads decode_utf8 post GOOGLE_TTS_RPC LANGUAGES
                           self rnd (PStr s)) = true).
Proof.
  assert (Hlong : (5000 <= Str.len s)%Z ->
     translate json_loads decode_utf8 post GOOGLE_TTS_RPC LANGUAGES
               self rnd (PStr s) src tgt pronounce
     = ([LogWarning "GoogleTranslate can only translate text with less than 5000 characters"],
        Ret PNone)
     /\ detect json_loads decode_utf8 post GOOGLE_TTS_RPC LANGUAGES self rnd (PStr s)
        = ([LogWarning "GoogleTranslate can only detect text with less than 5000 characters"],
           Ret None)).
  { intros H. apply Z.leb_le in H. unfold translate, detect.
    cbn [Py.str Py.len lift bind]. rewrite H. split; reflexivity. }
  assert (Hempty : s = "" ->
     translate json_loads decode_utf8 post GOOGLE_TTS_RPC LANGUAGES
               self rnd (PStr s) src tgt pronounce
     = ([LogWarning "Nothing to translate: len(text)=0"], Ret (PStr ""))
     /\ detect json_loads decode_utf8 post GOOGLE_TTS_RPC LANGUAGES self rnd (PStr s)
        = ([LogWarning "Nothing to detact: len(text)=0"], Ret None)).
  { intros ->. split; reflexivity. }
  split; [ exact Hlong | ]. split; [ exact Hempty | ].
  intros [H | H].
  - destruct (Hlong H) as [-> ->]. split; reflexivity.
  - destruct (Hempty H) as [-> ->]. split; reflexivity.
Qed.

(** *** Detection *)

Lemma detect_outcome self r rnd (s m : string) :
  (0 < Str.len s < 5000)%Z ->
  nth_error GOOGLE_TTS_RPC 0 = Some m ->
  outcome (detect_on r self rnd (PStr s)) =
    match
      (LET found <- detect_lines (lines r) IN
       match found with
       | Some d => Ret (Some d)
       | None => LET _ <- raise_for_status r IN Ret None
       end)
    with
    | Ret v => Ret v
    | Raise e => detect_except self (Some r) e
    end.
Proof.
  intros Hlen Hm. unfold detect. cbn [Py.len lift bind app].
  destruct (guards_pass _ Hlen) as [-> ->].
  destruct (f_req_data_returns rnd s "auto" "auto" m Hm) as [data Hd].
  rewrite Hd. reflexivity.
Qed.

(** C8.  When the first marker line of the response holds a detected
    code at its fixed position, [detect] lower-cases the code and
    returns the mapping with the single entry from the lower-cased
    code to its name in [LANGUAGES]; when the lower-cased code is not
    a key of [LANGUAGES] the lookup error (KeyError) reaches the
    caller. *)
Theorem detect_looks_up_code self r rnd (s m d : string) rest (code : string) :
  (0 < Str.len s < 5000)%Z ->
  nth_error GOOGLE_TTS_RPC 0 = Some m ->
  select_line m (lines r) = Ret (Some (d, rest)) ->
  detected_code json_loads d = Ret (PStr code) ->
  outcome (detect_on r self rnd (PStr s)) =
    match LANGUAGES !! Str.lower code with
    | Some name => Ret (Some {[ Str.lower code := name ]})
    | None => Raise (KeyError (PStr (Str.lower code)))
    end.
Proof.
  intros Hlen Hm Hsel Hcode.
  rewrite (detect_outcome _ _ _ _ m Hlen Hm).
  rewrite (detect_lines_select m) by now apply marker_first.
  rewrite Hsel; cbn [rbind].
  rewrite (detect_line_code _ _ Hcode); cbn [Py.lower rbind].
  unfold language_entry.
  destruct (LANGUAGES !! Str.lower code); reflexivity.
Qed.

(** *** Language codes *)


(** *** Arguments that are not str *)


End Properties.

(** ** Error classification *)

(** What [infer_msg] answers for an object that carries both
    attributes. *)
Lemma infer_msg_classified {T} `{TTSLike T} (tts : T) (rsp : Response) flag l :
  lang_check tts = Some flag ->
  lang tts = Some l ->
  let premise :=
    Str.of_Z (status_code rsp) +:+ " (" +:+ reason rsp +:+ ") from TTS API" in
  infer_msg tts (Some rsp) =
    Ret (premise +:+ ". Probable cause: " +:+
         (if (status_code rsp =? 403)%Z then "Bad token or upstream API changes"
          else if (status_code rsp =? 200)%Z && negb (Py.truthy flag)
               then "No audio stream in response. Unsupported language '"
                      +:+ Py.str l +:+ "'"
          else if (500 <=? status_code rsp)%Z then "Upstream API error. Try again later."
          else "Unknown")).
Proof.
  intros Hflag Hl premise. unfold infer_msg, attr. fold premise.
  destruct (status_code rsp =? 403)%Z; [ reflexivity | ].
  destruct (status_code rsp =? 200)%Z; cbn [rbind andb].
  - rewrite Hflag; cbn [rbind]. destruct (negb (Py.truthy flag)); cbn [rbind].
    + now rewrite Hl.
    + now destruct (500 <=? status_code rsp)%Z.
  - now destruct (500 <=? status_code rsp)%Z.
Qed.

(** For the client of this package the statuses other than 200 are
    classified: 403, 500 and above, and the rest. *)
Lemma infer_msg_client (self : GoogleTranslate) (rsp : Response) :
  status_code rsp <> 200%Z ->
  infer_msg self (Some rsp) =
    Ret ((Str.of_Z (status_code rsp) +:+ " (" +:+ reason rsp +:+ ") from TTS API")
         +:+ ". Probable cause: " +:+
         (if (status_code rsp =? 403)%Z then "Bad token or upstream API changes"
          else if (500 <=? status_code rsp)%Z then "Upstream API error. Try again later."
          else "Unknown")).
Proof.
  intros Hne. unfold infer_msg.
  destruct (status_code rsp =? 403)%Z; [ reflexivity | ].
  apply Z.eqb_neq in Hne. rewrite Hne; cbn [rbind].
  now destruct (500 <=? status_code rsp)%Z.
Qed.

(** C6.  At status 200 the classification reads [tts.lang_check]; a
    [GoogleTranslate] client has no such attribute, so building the
    error from a client and a response of status 200 raises
    AttributeError where the claim has a message with the
    unsupported-language cause. *)
Theorem error_from_client_at_status_200 (self : GoogleTranslate) (why : string)
    (ls : list string) :
  GoogleTranslateError_init None (Some self)
    (Some {| status_code := 200; reason := why; lines := ls |})
  = Raise (AttributeError "lang_check").
Proof. reflexivity. Qed.

(** ** The properties on concrete responses *)

Lemma client_is_built :
  GoogleTranslate_init Fixture.suffixes "com" Fixture.user_agents 0 "com" 5 None
    = Ret Fixture.client
  /\ GoogleTranslate_init Fixture.suffixes "com" Fixture.user_agents 0 "example" 5 None
    = Ret Fixture.client
  /\ GoogleTranslate_init Fixture.suffixes "com" [] 0 "com" 5 None = Raise IndexError.
Proof. repeat split; reflexivity. Qed.

(** C1, as first stated, fails: with no fragment at position 5 the
    result is the empty string, which has no trailing space. *)
Lemma no_fragment_no_trailing_space :
  translation_array Fixture.no_fragments
    = Ret (PList [Fixture.sentence_element []])
  /\ Py.len (Fixture.sentence_element []) = Ret 6%Z
  /\ Py.getitem (Fixture.sentence_element []) 5 = Ret (PList [])
  /\ outcome (translate Mock.json_loads Mock.decode_utf8
                (Fixture.answers
                   (Fixture.ok (Fixture.body (Fixture.wire "MkEWBc" Fixture.no_fragments))))
                Fixture.RPC Fixture.languages Fixture.client 0
                (PStr "hello") "auto" "es" false)
     = Ret (PStr "")
  /\ Str.ends_with_space "" = false.
Proof. repeat split; vm_compute; reflexivity. Qed.

Lemma translate_single_sentence_hola :
  outcome (translate Mock.json_loads Mock.decode_utf8
             (Fixture.answers
                (Fixture.ok (Fixture.body (Fixture.wire "MkEWBc" Fixture.hola))))
             Fixture.RPC Fixture.languages Fixture.client 0
             (PStr "hello") "auto" "es" false)
  = Ret (PStr "Hola mundo ")
  /\ (["Hola"; "mundo"] <> [] -> Str.ends_with_space "Hola mundo " = true).
Proof.
  apply (translate_single_sentence
           Mock.json_loads Mock.decode_utf8 Fixture.RPC Fixture.languages
           Fixture.client _ 0 (PStr "hello") "auto" "es" "MkEWBc"
           (Fixture.wire "MkEWBc" Fixture.hola) [] Fixture.hola
           [PNone; PNone; PNone; PBool true; PNone;
            PList [PList [PStr "Hola"; PStr " "]; PList [PStr "mundo"]]]
           [PList [PStr "Hola"; PStr " "]; PList [PStr "mundo"]]
           ["Hola"; "mundo"]).
  - split; reflexivity.
  - reflexivity.
  - vm_compute; reflexivity.
  - vm_compute; reflexivity.
  - reflexivity.
  - reflexivity.
  - reflexivity.
  - repeat constructor.
Defined.

(** C2, as first stated, fails for [translate]: the first line with
    the marker carries a translation array of three elements and gives
    no result, and [translate] returns what the second line with the
    marker holds. *)
Lemma translate_skips_unknown_shape :
  let first := Fixture.wire "MkEWBc" Fixture.triple in
  let second := Fixture.wire "MkEWBc" Fixture.bare_url in
  select_line Mock.decode_utf8 "MkEWBc" [first; second] = Ret (Some (first, [second]))
  /\ translate_line Mock.json_loads false first = Ret None
  /\ translate_lines Mock.json_loads Mock.decode_utf8 Fixture.RPC false [first; second]
     = Ret (Some (PStr "https://example.com"))
  /\ translate_lines Mock.json_loads Mock.decode_utf8 Fixture.RPC false [first; second]
     <> (LET sel <- select_line Mock.decode_utf8 "MkEWBc" [first; second] IN
         match sel with
         | None => Ret None
         | Some (d, _) => translate_line Mock.json_loads false d
         end)
  /\ outcome (translate Mock.json_loads Mock.decode_utf8
                (Fixture.answers (Fixture.ok [first; second]))
                Fixture.RPC Fixture.languages Fixture.client 0
                (PStr "hello") "auto" "es" false)
     = Ret (PStr "https://example.com").
Proof.
  repeat split; try (vm_compute; reflexivity).
  vm_compute. discriminate.
Qed.

(** With a candidate list of two ids the marker of the scan and the id
    in the request differ as soon as the draw is not the first entry:
    the line that answers the request is passed over. *)
Lemma marker_is_not_the_draw :
  let candidates := ["MkEWBc"; "rPsWke"] in
  let line := Fixture.wire "rPsWke" Fixture.hola in
  random_choice 1 candidates = Ret "rPsWke"
  /\ (exists data,
        _f_req_data candidates 1 (PStr "hello") "auto" "es" = Ret data
        /\ Str.contains (Py.quote (Py.json_str "rPsWke")) data = true
        /\ Str.contains (Py.quote (Py.json_str "MkEWBc")) data = false)
  /\ Str.contains "rPsWke" line = true
  /\ translate_lines Mock.json_loads Mock.decode_utf8 candidates false [line] = Ret None.
Proof.
  repeat split; try (vm_compute; reflexivity).
  eexists. repeat split; vm_compute; reflexivity.
Qed.

Lemma marker_line_selection_detection :
  nth_error Fixture.RPC 0 = Some "MkEWBc"
  /\ detect_lines Mock.json_loads Mock.decode_utf8 Fixture.RPC Fixture.languages
       (Fixture.body (Fixture.wire "MkEWBc" (Fixture.detection "EN")))
     = (LET sel <- select_line Mock.decode_utf8 "MkEWBc"
                     (Fixture.body (Fixture.wire "MkEWBc" (Fixture.detection "EN"))) IN
        match sel with
        | None => Ret None
        | Some (d, _) =>
            LET detected_lang <- detect_line Mock.json_loads d IN
            LET entry <- language_entry Fixture.languages detected_lang IN
            Ret (Some entry)
        end).
Proof.
  split; [ reflexivity | ].
  apply (proj1 (marker_line_selection
                  Mock.json_loads Mock.decode_utf8 Fixture.RPC Fixture.languages
                  "MkEWBc" false _ eq_refl)).
Defined.

Lemma translate_bare_url_example :
  outcome (translate Mock.json_loads Mock.decode_utf8
             (Fixture.answers
                (Fixture.ok (Fixture.body (Fixture.wire "MkEWBc" Fixture.bare_url))))
             Fixture.RPC Fixture.languages Fixture.client 0
             (PStr "https://example.com") "auto" "es" true)
  = Ret (PList [PStr "https://example.com"; PNone; PNone]).
Proof.
  apply (translate_bare_url
           Mock.json_loads Mock.decode_utf8 Fixture.RPC Fixture.languages
           Fixture.client _ 0 (PStr "https://example.com") "auto" "es" true "MkEWBc"
           (Fixture.wire "MkEWBc" Fixture.bare_url) [] Fixture.bare_url
           (PList [PStr "https://example.com"]) 1%Z).
  - split; reflexivity.
  - reflexivity.
  - vm_compute; reflexivity.
  - vm_compute; reflexivity.
  - reflexivity.
  - reflexivity.
  - discriminate.
Defined.

Lemma translate_two_candidates_example :
  outcome (translate Mock.json_loads Mock.decode_utf8
             (Fixture.answers
                (Fixture.ok (Fixture.body (Fixture.wire "MkEWBc" Fixture.pair_spoken))))
             Fixture.RPC Fixture.languages Fixture.client 0
             (PStr "ni hao") "auto" "en" true)
  = Ret (PList [PList [PStr "hello"; PStr "hi"]; PStr "ni hao"; PStr "heh-LOH"])
  /\ outcome (translate Mock.json_loads Mock.decode_utf8
                (Fixture.answers
                   (Fixture.ok (Fixture.body (Fixture.wire "MkEWBc" Fixture.pair_spoken))))
                Fixture.RPC Fixture.languages Fixture.client 0
                (PStr "ni hao") "auto" "en" false)
     = Ret (PList [PStr "hello"; PStr "hi"]).
Proof.
  split.
  - apply (translate_two_candidates
             Mock.json_loads Mock.decode_utf8 Fixture.RPC Fixture.languages
             Fixture.client _ 0 (PStr "ni hao") "auto" "en" true "MkEWBc"
             (Fixture.wire "MkEWBc" Fixture.pair_spoken) [] Fixture.pair_spoken
             (PList [PStr "hello"; PStr "heh-LOH"]) (PList [PStr "hi"; PStr "hai"])).
    + split; reflexivity.
    + reflexivity.
    + vm_compute; reflexivity.
    + vm_compute; reflexivity.
    + reflexivity.
  - apply (translate_two_candidates
             Mock.json_loads Mock.decode_utf8 Fixture.RPC Fixture.languages
             Fixture.client _ 0 (PStr "ni hao") "auto" "en" false "MkEWBc"
             (Fixture.wire "MkEWBc" Fixture.pair_spoken) [] Fixture.pair_spoken
             (PList [PStr "hello"; PStr "heh-LOH"]) (PList [PStr "hi"; PStr "hai"])).
    + split; reflexivity.
    + reflexivity.
    + vm_compute; reflexivity.
    + vm_compute; reflexivity.
    + reflexivity.
Defined.

(** C5, as first stated, fails: the backend leaves the source
    pronunciation out altogether (the first branch of the envelope is
    empty, or null); the translation is found, and with [pronounce]
    [translate] raises. *)
Lemma missing_pronunciation_slot_raises :
  outcome (translate Mock.json_loads Mock.decode_utf8
             (Fixture.answers
                (Fixture.ok (Fixture.body (Fixture.wire "MkEWBc" Fixture.no_source_slot))))
             Fixture.RPC Fixture.languages Fixture.client 0
             (PStr "hello") "auto" "es" false)
  = Ret (PStr "Hola mundo ")
  /\ outcome (translate Mock.json_loads Mock.decode_utf8
                (Fixture.answers
                   (Fixture.ok (Fixture.body (Fixture.wire "MkEWBc" Fixture.no_source_slot))))
                Fixture.RPC Fixture.languages Fixture.client 0
                (PStr "hello") "auto" "es" true)
     = Raise IndexError
  /\ outcome (translate Mock.json_loads Mock.decode_utf8
                (Fixture.answers
                   (Fixture.ok
                      (Fixture.body (Fixture.wire "MkEWBc" Fixture.null_first_branch))))
                Fixture.RPC Fixture.languages Fixture.client 0
                (PStr "hello") "auto" "es" true)
     = Raise TypeError.
Proof. repeat split; vm_compute; reflexivity. Qed.

Lemma translate_pronunciation_positions_example :
  outcome (translate Mock.json_loads Mock.decode_utf8
             (Fixture.answers
                (Fixture.ok (Fixture.body (Fixture.wire "MkEWBc" Fixture.pair))))
             Fixture.RPC Fixture.languages Fixture.client 0
             (PStr "ni hao") "auto" "en" true)
  = Ret (PList [PList [PStr "hello"; PStr "hi"]; PStr "ni hao"; PNone])
  /\ outcome (translate Mock.json_loads Mock.decode_utf8
                (Fixture.answers
                   (Fixture.ok (Fixture.body (Fixture.wire "MkEWBc" Fixture.hola))))
                Fixture.RPC Fixture.languages Fixture.client 0
                (PStr "hello") "auto" "es" true)
     = Ret (PList [PStr "Hola mundo "; PNone; PNone]).
Proof.
  split.
  - apply (translate_pronunciation_positions
             Mock.json_loads Mock.decode_utf8 Fixture.RPC Fixture.languages
             Fixture.client _ 0 (PStr "ni hao") "auto" "en" "MkEWBc"
             (Fixture.wire "MkEWBc" Fixture.pair) [] Fixture.pair
             (PList [PList [PStr "hello"; PNone]; PList [PStr "hi"; PStr "hai"]])
             (PList [PStr "hello"; PStr "hi"])).
    + split; reflexivity.
    + reflexivity.
    + vm_compute; reflexivity.
    + vm_compute; reflexivity.
    + reflexivity.
    + right. reflexivity.
    + reflexivity.
  - apply (translate_pronunciation_positions
             Mock.json_loads Mock.decode_utf8 Fixture.RPC Fixture.languages
             Fixture.client _ 0 (PStr "hello") "auto" "es" "MkEWBc"
             (Fixture.wire "MkEWBc" Fixture.hola) [] Fixture.hola
             (PList [Fixture.sentence_element
                       [PList [PStr "Hola"; PStr " "]; PList [PStr "mundo"]]])
             (PStr "Hola mundo ")).
    + split; reflexivity.
    + reflexivity.
    + vm_compute; reflexivity.
    + vm_compute; reflexivity.
    + reflexivity.
    + left. eexists _, 6%Z. repeat split.
    + reflexivity.
Defined.

Lemma guards_short_circuit_example :
  (translate Mock.json_loads Mock.decode_utf8 (Fixture.answers (Fixture.ok []))
     Fixture.RPC Fixture.languages Fixture.client 0
     (PStr Fixture.long_text) "auto" "es" false
   = ([LogWarning "GoogleTranslate can only translate text with less than 5000 characters"],
      Ret PNone)
   /\ detect Mock.json_loads Mock.decode_utf8 (Fixture.answers (Fixture.ok []))
        Fixture.RPC Fixture.languages Fixture.client 0 (PStr Fixture.long_text)
      = ([LogWarning "GoogleTranslate can only detect text with less than 5000 characters"],
         Ret None))
  /\ (translate Mock.json_loads Mock.decode_utf8 (Fixture.answers (Fixture.ok []))
        Fixture.RPC Fixture.languages Fixture.client 0 (PStr "") "auto" "es" false
      = ([LogWarning "Nothing to translate: len(text)=0"], Ret (PStr ""))
      /\ detect Mock.json_loads Mock.decode_utf8 (Fixture.answers (Fixture.ok []))
           Fixture.RPC Fixture.languages Fixture.client 0 (PStr "")
         = ([LogWarning "Nothing to detact: len(text)=0"], Ret None)).
Proof.
  split.
  - apply (proj1 (guards_short_circuit
                    Mock.json_loads Mock.decode_utf8 Fixture.RPC Fixture.languages
                    (Fixture.answers (Fixture.ok [])) Fixture.client 0
                    Fixture.long_text "auto" "es" false)).
    vm_compute. discriminate.
  - apply (proj1 (proj2 (guards_short_circuit
                    Mock.json_loads Mock.decode_utf8 Fixture.RPC Fixture.languages
                    (Fixture.answers (Fixture.ok [])) Fixture.client 0
                    "" "auto" "es" false))).
    reflexivity.
Defined.

Lemma detect_looks_up_code_example :
  outcome (detect Mock.json_loads Mock.decode_utf8
             (Fixture.answers
                (Fixture.ok (Fixture.body (Fixture.wire "MkEWBc" (Fixture.detection "EN")))))
             Fixture.RPC Fixture.languages Fixture.client 0 (PStr "hello"))
  = Ret (Some {[ "en" := "english" ]})
  /\ outcome (detect Mock.json_loads Mock.decode_utf8
                (Fixture.answers
                   (Fixture.ok (Fixture.body (Fixture.wire "MkEWBc" (Fixture.detection "TLH")))))
                Fixture.RPC Fixture.languages Fixture.client 0 (PStr "hello"))
     = Raise (KeyError (PStr "tlh")).
Proof.
  split.
  - refine (eq_trans
              (detect_looks_up_code
                 Mock.json_loads Mock.decode_utf8 Fixture.RPC Fixture.languages
                 Fixture.client _ 0 "hello" "MkEWBc"
                 (Fixture.wire "MkEWBc" (Fixture.detection "EN")) [] "EN" _ _ _ _) _).
    + split; reflexivity.
    + reflexivity.
    + vm_compute; reflexivity.
    + vm_compute; reflexivity.
    + vm_compute; reflexivity.
  - refine (eq_trans
              (detect_looks_up_code
                 Mock.json_loads Mock.decode_utf8 Fixture.RPC Fixture.languages
                 Fixture.client _ 0 "hello" "MkEWBc"
                 (Fixture.wire "MkEWBc" (Fixture.detection "TLH")) [] "TLH" _ _ _ _) _).
    + split; reflexivity.
    + reflexivity.
    + vm_compute; reflexivity.
    + vm_compute; reflexivity.
    + vm_compute; reflexivity.
Defined.




(** What the callers of [translate] see of C6: a 403 without a marker
    line is classified, and so is a 503. *)
Lemma translate_http_errors :
  outcome (translate Mock.json_loads Mock.decode_utf8
             (Fixture.answers (Fixture.status 403 "Forbidden"))
             Fixture.RPC Fixture.languages Fixture.client 0
             (PStr "hello") "auto" "es" false)
  = Raise (GoogleTranslateError
             (Some "403 (Forbidden) from TTS API. Probable cause: Bad token or upstream API changes"))
  /\ outcome (translate Mock.json_loads Mock.decode_utf8
                (Fixture.answers (Fixture.status 503 "Service Unavailable"))
                Fixture.RPC Fixture.languages Fixture.client 0
                (PStr "hello") "auto" "es" false)
     = Raise (GoogleTranslateError
                (Some "503 (Service Unavailable) from TTS API. Probable cause: Upstream API error. Try again later."))
  /\ outcome (translate Mock.json_loads Mock.decode_utf8
                (Fixture.answers (Fixture.status 404 "Not Found"))
                Fixture.RPC Fixture.languages Fixture.client 0
                (PStr "hello") "auto" "es" false)
     = Raise (GoogleTranslateError
                (Some "404 (Not Found) from TTS API. Probable cause: Unknown")).
Proof. repeat split; vm_compute; reflexivity. Qed.

(** An object that has the flag, unset, is told its language is not
    supported at status 200. *)
Lemma infer_msg_stub_at_status_200 :
  infer_msg {| Fixture.stub_lang_check := PBool false; Fixture.stub_lang := PStr "xx" |}
            (Some (Fixture.status 200 "OK"))
  = Ret "200 (OK) from TTS API. Probable cause: No audio stream in response. Unsupported language 'xx'".
Proof. reflexivity. Qed.

(** * More of the client: construction, the request, failures *)

Section Coverage.

Variable json_loads : string -> option pyval.
Variable decode_utf8 : string -> option string.
Variable post : string -> string -> Z -> post_outcome.
Variable GOOGLE_TTS_RPC : list string.
Variable LANGUAGES : gmap string string.

Local Abbreviation translate' :=
  (translate json_loads decode_utf8 post GOOGLE_TTS_RPC LANGUAGES).
Local Abbreviation detect' :=
  (detect json_loads decode_utf8 post GOOGLE_TTS_RPC LANGUAGES).
Local Abbreviation translate_lines' :=
  (translate_lines json_loads decode_utf8 GOOGLE_TTS_RPC).
Local Abbreviation detect_lines' :=
  (detect_lines json_loads decode_utf8 GOOGLE_TTS_RPC LANGUAGES).

(** [_process_lang] returns, and what it logs is warnings *)
Lemma process_lang_run (lang : string) :
  exists w l,
    _process_lang LANGUAGES lang = (w, Ret l)
    /\ existsb is_post w = false
    /\ (l = "auto" \/ is_Some (LANGUAGES !! l)).
Proof.
  unfold _process_lang.
  destruct (String.eqb_spec lang "auto") as [-> | Hne].
  - exists [], "auto". repeat split; auto.
  - destruct (LANGUAGES !! lang) as [name | ] eqn:E.
    + rewrite bool_decide_eq_true_2 by eauto.
      exists [], lang. repeat split; eauto.
    + rewrite bool_decide_eq_false_2 by (intros [? ?]; congruence).
      eexists _, "auto". repeat split; auto.
Qed.

(** what [translate] does with a text that passes the guards: it logs
    the warnings of the two language codes, posts one request, and
    goes on with what the backend answers *)
Lemma translate_run self rnd text src tgt pronounce m :
  (0 < Str.len (Py.str text) < 5000)%Z ->
  nth_error GOOGLE_TTS_RPC 0 = Some m ->
  exists ws wt src' tgt' data,
    _process_lang LANGUAGES src = (ws, Ret src')
    /\ _process_lang LANGUAGES tgt = (wt, Ret tgt')
    /\ _f_req_data GOOGLE_TTS_RPC rnd (PStr (Py.str text)) src' tgt' = Ret data
    /\ translate' self rnd text src tgt pronounce =
       ((ws ++ wt ++ [SessionPost (url self) data (timeout self)])%list,
        match post (url self) data (timeout self) with
        | PostResponse r =>
            match
              (LET found <- translate_lines' pronounce (lines r) IN
               match found with
               | Some v => Ret v
               | None => LET _ <- raise_for_status r IN Ret PNone
               end)
            with
            | Ret v => Ret v
            | Raise e => translate_except self (Some r) e
            end
        | PostConnectTimeout => translate_except self None ConnectTimeout
        | PostRequestException => translate_except self None RequestException
        end).
Proof.
  intros Hlen Hm.
  destruct (process_lang_run src) as (ws & src' & Hs & _ & _).
  destruct (process_lang_run tgt) as (wt & tgt' & Ht & _ & _).
  destruct (f_req_data_returns GOOGLE_TTS_RPC rnd (Py.str text) src' tgt' m Hm)
    as [data Hd].
  exists ws, wt, src', tgt', data. repeat split; try assumption.
  unfold translate. destruct (guards_pass _ Hlen) as [-> ->].
  rewrite Hs. cbn [bind]. rewrite Ht. cbn [bind]. rewrite Hd.
  unfold lift, session_post, emit. cbn [bind app].
  destruct (post (url self) data (timeout self)); cbn [app];
    rewrite ?app_nil_r; reflexivity.
Qed.

(** the same for [detect] on a str *)
Lemma detect_run self rnd (s m : string) :
  (0 < Str.len s < 5000)%Z ->
  nth_error GOOGLE_TTS_RPC 0 = Some m ->
  exists data,
    _f_req_data GOOGLE_TTS_RPC rnd (PStr s) "auto" "auto" = Ret data
    /\ detect' self rnd (PStr s) =
       ([SessionPost (url self) data (timeout self)],
        match post (url self) data (timeout self) with
        | PostResponse r =>
            match
              (LET found <- detect_lines' (lines r) IN
               match found with
               | Some d => Ret (Some d)
               | None => LET _ <- raise_for_status r IN Ret None
               end)
            with
            | Ret v => Ret v
            | Raise e => detect_except self (Some r) e
            end
        | PostConnectTimeout => detect_except self None ConnectTimeout
        | PostRequestException => detect_except self None RequestException
        end).
Proof.
  intros Hlen Hm.
  destruct (f_req_data_returns GOOGLE_TTS_RPC rnd s "auto" "auto" m Hm) as [data Hd].
  exists data. split; [ assumption | ].
  unfold detect. cbn [Py.len lift bind app].
  destruct (guards_pass _ Hlen) as [-> ->].
  rewrite Hd. unfold session_post, emit, lift. cbn [bind app].
  destruct (post (url self) data (timeout self)); reflexivity.
Qed.

(** *** Errors of the parsing code are not [requests] exceptions *)

Lemma nre_ret {A} (a : A) : raises_no_requests_exception (Ret a).
Proof. intros e H. discriminate. Qed.

Lemma nre_raise {A} (e : exn) :
  requests_exception e = false -> raises_no_requests_exception (@Raise A e).
Proof. intros H e' [= <-]. exact H. Qed.

Lemma nre_bind {A B} (m : res A) (k : A -> res B) :
  raises_no_requests_exception m ->
  (forall a, raises_no_requests_exception (k a)) ->
  raises_no_requests_exception (LET x <- m IN k x).
Proof.
  intros Hm Hk e. destruct m as [a | e']; cbn [rbind].
  - apply Hk.
  - intros [= <-]. now apply Hm.
Qed.

Lemma nre_getitem v i : raises_no_requests_exception (Py.getitem v i).
Proof. intros e. apply getitem_error. Qed.

Lemma nre_len v : raises_no_requests_exception (Py.len v).
Proof. destruct v; cbn; (apply nre_ret || now apply nre_raise). Qed.

Lemma nre_iter v : raises_no_requests_exception (Py.iter v).
Proof. destruct v; cbn; (apply nre_ret || now apply nre_raise). Qed.

Lemma nre_list v : raises_no_requests_exception (Py.list_ v).
Proof. apply nre_bind; [ apply nre_iter | intros; apply nre_ret ]. Qed.

Lemma nre_strip v : raises_no_requests_exception (Py.strip v).
Proof. destruct v; cbn; (apply nre_ret || now apply nre_raise). Qed.

Lemma nre_lower v : raises_no_requests_exception (Py.lower v).
Proof. destruct v; cbn; (apply nre_ret || now apply nre_raise). Qed.

Lemma nre_loads v : raises_no_requests_exception (loads json_loads v).
Proof.
  destruct v; cbn; try now apply nre_raise.
  destruct (json_loads s); [ apply nre_ret | now apply nre_raise ].
Qed.

Lemma nre_concat_sentences items :
  forall acc, raises_no_requests_exception (concat_sentences acc items).
Proof.
  induction items as [ | x items IH ]; intros acc; cbn [concat_sentences].
  - apply nre_ret.
  - apply nre_bind; [ apply nre_getitem | intros a ].
    apply nre_bind; [ apply nre_strip | intros b; apply IH ].
Qed.

Lemma nre_first_items items :
  forall acc, raises_no_requests_exception (first_items acc items).
Proof.
  induction items as [ | x items IH ]; intros acc; cbn [first_items].
  - apply nre_ret.
  - apply nre_bind; [ apply nre_getitem | intros a; apply IH ].
Qed.

Lemma nre_pronounce_src env : raises_no_requests_exception (pronounce_src env).
Proof. intros e. apply pronounce_src_error. Qed.

Lemma nre_pronounce_tgt env : raises_no_requests_exception (pronounce_tgt env).
Proof. intros e. apply pronounce_tgt_error. Qed.

Lemma nre_envelope d : raises_no_requests_exception (envelope json_loads d).
Proof.
  unfold envelope.
  repeat (apply nre_bind;
          [ first [ apply nre_loads | apply nre_list | apply nre_getitem ] | intros ? ]).
  apply nre_list.
Qed.

Lemma nre_dispatch pronounce env :
  raises_no_requests_exception (dispatch pronounce env).
Proof.
  unfold dispatch, translation_array.
  apply nre_bind;
    [ apply nre_bind; [ apply nre_getitem | intros; apply nre_getitem ] | intros arr ].
  apply nre_bind; [ apply nre_len | intros n ].
  destruct (n =? 1)%Z.
  - apply nre_bind; [ apply nre_getitem | intros r0 ].
    apply nre_bind; [ apply nre_len | intros n0 ].
    destruct (5 <? n0)%Z.
    + apply nre_bind; [ apply nre_getitem | intros s5 ].
      apply nre_bind; [ apply nre_iter | intros items ].
      apply nre_bind; [ apply nre_concat_sentences | intros txt ].
      destruct pronounce; cbn [negb]; [ | apply nre_ret ].
      apply nre_bind; [ apply nre_pronounce_src | intros a ].
      apply nre_bind; [ apply nre_pronounce_tgt | intros b; apply nre_ret ].
    + apply nre_bind; [ apply nre_getitem | intros x ].
      destruct pronounce; apply nre_ret.
  - destruct (n =? 2)%Z; [ | apply nre_ret ].
    apply nre_bind; [ apply nre_iter | intros items ].
    apply nre_bind; [ apply nre_first_items | intros xs ].
    destruct pronounce; cbn [negb]; [ | apply nre_ret ].
    apply nre_bind; [ apply nre_pronounce_src | intros a ].
    apply nre_bind; [ apply nre_pronounce_tgt | intros b; apply nre_ret ].
Qed.

Lemma nre_translate_line pronounce d :
  raises_no_requests_exception (translate_line json_loads pronounce d).
Proof.
  unfold translate_line.
  apply nre_bind; [ apply nre_envelope | intros; apply nre_dispatch ].
Qed.

Lemma nre_detect_line d :
  raises_no_requests_exception (detect_line json_loads d).
Proof.
  unfold detect_line, detected_code.
  apply nre_bind; [ | intros; apply nre_lower ].
  repeat (apply nre_bind;
          [ first [ apply nre_loads | apply nre_getitem ] | intros ? ]).
  apply nre_getitem.
Qed.

Lemma nre_language_entry code :
  raises_no_requests_exception (language_entry LANGUAGES code).
Proof.
  unfold language_entry.
  destruct (LANGUAGES !! code); [ apply nre_ret | now apply nre_raise ].
Qed.

(** *** What the caller gets when the backend answers *)

Lemma translate_answered self r rnd text src tgt pronounce m :
  (0 < Str.len (Py.str text) < 5000)%Z ->
  nth_error GOOGLE_TTS_RPC 0 = Some m ->
  (forall data, post (url self) data (timeout self) = PostResponse r) ->
  outcome (translate' self rnd text src tgt pronounce) =
    match
      (LET sel <- select_line decode_utf8 m (lines r) IN
       match sel with
       | None => LET _ <- raise_for_status r IN Ret PNone
       | Some (d, rest) =>
           LET found <- translate_line json_loads pronounce d IN
           match found with
           | Some v => Ret v
           | None =>
               LET found' <- translate_lines' pronounce rest IN
               match found' with
               | Some v => Ret v
               | None => LET _ <- raise_for_status r IN Ret PNone
               end
           end
       end)
    with
    | Ret v => Ret v
    | Raise e => translate_except self (Some r) e
    end.
Proof.
  intros Hlen Hm Hpost.
  destruct (translate_run self rnd text src tgt pronounce m Hlen Hm)
    as (ws & wt & src' & tgt' & data & _ & _ & _ & ->).
  cbn [outcome snd]. rewrite Hpost.
  rewrite (translate_lines_select json_loads decode_utf8 GOOGLE_TTS_RPC m)
    by now apply marker_first.
  destruct (select_line decode_utf8 m (lines r)) as [[[d rest] | ] | e];
    cbn [rbind]; try reflexivity.
  destruct (translate_line json_loads pronounce d) as [[v | ] | e];
    cbn [rbind]; reflexivity.
Qed.

Lemma detect_answered self r rnd (s m : string) :
  (0 < Str.len s < 5000)%Z ->
  nth_error GOOGLE_TTS_RPC 0 = Some m ->
  (forall data, post (url self) data (timeout self) = PostResponse r) ->
  outcome (detect' self rnd (PStr s)) =
    match
      (LET sel <- select_line decode_utf8 m (lines r) IN
       match sel with
       | None => LET _ <- raise_for_status r IN Ret None
       | Some (d, _) =>
           LET detected_lang <- detect_line json_loads d IN
           LET entry <- language_entry LANGUAGES detected_lang IN
           Ret (Some entry)
       end)
    with
    | Ret v => Ret v
    | Raise e => detect_except self (Some r) e
    end.
Proof.
  intros Hlen Hm Hpost.
  destruct (detect_run self rnd s m Hlen Hm) as (data & _ & ->).
  cbn [outcome snd]. rewrite Hpost.
  rewrite (detect_lines_select json_loads decode_utf8 GOOGLE_TTS_RPC LANGUAGES m)
    by now apply marker_first.
  destruct (select_line decode_utf8 m (lines r)) as [[[d rest] | ] | e];
    cbn [rbind]; try reflexivity.
  destruct (detect_line json_loads d) as [c | e]; cbn [rbind]; [ | reflexivity ].
  destruct (language_entry LANGUAGES c); reflexivity.
Qed.

(** An exception raised while the first marker line is decoded and
    walked through (malformed JSON, a missing position, a value of
    the wrong type) reaches the caller of [translate] as it is: no
    [except] clause rewrites it, the later lines and the HTTP status
    are not looked at. *)
Theorem translate_parse_error_propagates
    self r rnd text src tgt pronounce m d rest e :
  (0 < Str.len (Py.str text) < 5000)%Z ->
  nth_error GOOGLE_TTS_RPC 0 = Some m ->
  (forall data, post (url self) data (timeout self) = PostResponse r) ->
  select_line decode_utf8 m (lines r) = Ret (Some (d, rest)) ->
  translate_line json_loads pronounce d = Raise e ->
  outcome (translate' self rnd text src tgt pronounce) = Raise e.
Proof.
  intros Hlen Hm Hpost Hsel Hline.
  rewrite (translate_answered self r rnd text src tgt pronounce m Hlen Hm Hpost).
  rewrite Hsel; cbn [rbind]. rewrite Hline; cbn [rbind].
  apply translate_except_other. now apply (nre_translate_line pronounce d).
Qed.

(** The same for [detect]: an exception raised while the first marker
    line is decoded, read and lower-cased reaches the caller as it
    is. *)
Theorem detect_parse_error_propagates self r rnd (s m d : string) rest e :
  (0 < Str.len s < 5000)%Z ->
  nth_error GOOGLE_TTS_RPC 0 = Some m ->
  (forall data, post (url self) data (timeout self) = PostResponse r) ->
  select_line decode_utf8 m (lines r) = Ret (Some (d, rest)) ->
  detect_line json_loads d = Raise e ->
  outcome (detect' self rnd (PStr s)) = Raise e.
Proof.
  intros Hlen Hm Hpost Hsel Hline.
  rewrite (detect_answered self r rnd s m Hlen Hm Hpost).
  rewrite Hsel; cbn [rbind]. rewrite Hline; cbn [rbind].
  apply detect_except_other. now apply (nre_detect_line d).
Qed.

(** When no line of the body contains the marker and the status is an
    error status (400 to 599), [translate] and [detect] raise
    GoogleTranslateError with the message "<status> (<reason>) from TTS
    API. Probable cause: <cause>", the cause being "Bad token or
    upstream API changes" for 403, "Upstream API error. Try again
    later." from 500 on, and "Unknown" for the other statuses. *)
Theorem http_error_is_classified self r rnd (s : string) src tgt pronounce m :
  (0 < Str.len s < 5000)%Z ->
  nth_error GOOGLE_TTS_RPC 0 = Some m ->
  (forall data, post (url self) data (timeout self) = PostResponse r) ->
  no_marker_line decode_utf8 m (lines r) ->
  (400 <= status_code r < 600)%Z ->
  let msg :=
    (Str.of_Z (status_code r) +:+ " (" +:+ reason r +:+ ") from TTS API")
    +:+ ". Probable cause: " +:+
    (if (status_code r =? 403)%Z then "Bad token or upstream API changes"
     else if (500 <=? status_code r)%Z then "Upstream API error. Try again later."
     else "Unknown") in
  outcome (translate' self rnd (PStr s) src tgt pronounce)
    = Raise (GoogleTranslateError (Some msg))
  /\ outcome (detect' self rnd (PStr s)) = Raise (GoogleTranslateError (Some msg)).
Proof.
  intros Hlen Hm Hpost Hnone Hst msg.
  assert (Hraise : raise_for_status r = Raise HTTPError).
  { unfold raise_for_status.
    replace (400 <=? status_code r)%Z with true by (symmetry; apply Z.leb_le; lia).
    replace (status_code r <? 600)%Z with true by (symmetry; apply Z.ltb_lt; lia).
    reflexivity. }
  assert (Hmsg : infer_msg self (Some r) = Ret msg).
  { apply infer_msg_client. lia. }
  apply select_line_none in Hnone.
  split.
  - rewrite (translate_answered self r rnd (PStr s) src tgt pronounce m Hlen Hm Hpost).
    rewrite Hnone; cbn [rbind]. rewrite Hraise; cbn [rbind translate_except].
    unfold raise_error, GoogleTranslateError_init. now rewrite Hmsg.
  - rewrite (detect_answered self r rnd s m Hlen Hm Hpost).
    rewrite Hnone; cbn [rbind]. rewrite Hraise; cbn [rbind detect_except].
    unfold raise_error, GoogleTranslateError_init. now rewrite Hmsg.
Qed.

(** When no line of the body contains the marker and the status is not
    an error status, both functions return null: an answer without a
    payload line is not an error. *)
Theorem no_payload_returns_none self r rnd (s : string) src tgt pronounce m :
  (0 < Str.len s < 5000)%Z ->
  nth_error GOOGLE_TTS_RPC 0 = Some m ->
  (forall data, post (url self) data (timeout self) = PostResponse r) ->
  no_marker_line decode_utf8 m (lines r) ->
  (status_code r < 400 \/ 600 <= status_code r)%Z ->
  outcome (translate' self rnd (PStr s) src tgt pronounce) = Ret PNone
  /\ outcome (detect' self rnd (PStr s)) = Ret None.
Proof.
  intros Hlen Hm Hpost Hnone Hst.
  assert (Hok : raise_for_status r = Ret tt).
  { unfold raise_for_status.
    destruct (400 <=? status_code r)%Z eqn:E1; [ | reflexivity ].
    destruct (status_code r <? 600)%Z eqn:E2; [ | reflexivity ].
    apply Z.leb_le in E1. apply Z.ltb_lt in E2. lia. }
  apply select_line_none in Hnone.
  split.
  - rewrite (translate_answered self r rnd (PStr s) src tgt pronounce m Hlen Hm Hpost).
    rewrite Hnone; cbn [rbind]. now rewrite Hok.
  - rewrite (detect_answered self r rnd s m Hlen Hm Hpost).
    rewrite Hnone; cbn [rbind]. now rewrite Hok.
Qed.

(** *** When the backend does not answer *)

(** A connect timeout reaches the caller of [translate] as the raw
    [ConnectTimeout] of the transport, while [detect], which has no
    clause for it, wraps it in GoogleTranslateError with the message
    "Failed to connect. Probable cause: timeout". *)
Theorem connect_timeout_translate_raw_detect_wrapped
    self rnd (s : string) src tgt pronounce m :
  (0 < Str.len s < 5000)%Z ->
  nth_error GOOGLE_TTS_RPC 0 = Some m ->
  (forall data, post (url self) data (timeout self) = PostConnectTimeout) ->
  outcome (translate' self rnd (PStr s) src tgt pronounce) = Raise ConnectTimeout
  /\ outcome (detect' self rnd (PStr s))
     = Raise (GoogleTranslateError (Some "Failed to connect. Probable cause: timeout")).
Proof.
  intros Hlen Hm Hpost. split.
  - destruct (translate_run self rnd (PStr s) src tgt pronounce m Hlen Hm)
      as (ws & wt & src' & tgt' & data & _ & _ & _ & ->).
    cbn [outcome snd]. now rewrite Hpost.
  - destruct (detect_run self rnd s m Hlen Hm) as (data & _ & ->).
    cbn [outcome snd]. now rewrite Hpost.
Qed.

(** Any other failure of the transport (connection refused, read
    timeout, ...) is wrapped by both functions in GoogleTranslateError
    with the message "Failed to connect. Probable cause: timeout". *)
Theorem request_failure_is_wrapped self rnd (s : string) src tgt pronounce m :
  (0 < Str.len s < 5000)%Z ->
  nth_error GOOGLE_TTS_RPC 0 = Some m ->
  (forall data, post (url self) data (timeout self) = PostRequestException) ->
  outcome (translate' self rnd (PStr s) src tgt pronounce)
    = Raise (GoogleTranslateError (Some "Failed to connect. Probable cause: timeout"))
  /\ outcome (detect' self rnd (PStr s))
     = Raise (GoogleTranslateError (Some "Failed to connect. Probable cause: timeout")).
Proof.
  intros Hlen Hm Hpost. split.
  - destruct (translate_run self rnd (PStr s) src tgt pronounce m Hlen Hm)
      as (ws & wt & src' & tgt' & data & _ & _ & _ & ->).
    cbn [outcome snd]. now rewrite Hpost.
  - destruct (detect_run self rnd s m Hlen Hm) as (data & _ & ->).
    cbn [outcome snd]. now rewrite Hpost.
Qed.

(** *** One request per call *)

Lemma filter_no_post (w : list event) :
  existsb is_post w = false -> List.filter is_post w = [].
Proof.
  induction w as [ | e w IH ]; [ reflexivity | ].
  cbn [existsb List.filter]. intros H. apply orb_false_iff in H as [-> H].
  now apply IH.
Qed.

(** With a text that passes the guards, [translate] posts exactly one
    request, whatever the backend does: to the client's endpoint, with
    the client's timeout, and with the body that [_f_req_data] builds
    from [str(text)] and the two language codes as [_process_lang]
    returns them. *)
Theorem translate_posts_one_request self rnd text src tgt pronounce m :
  (0 < Str.len (Py.str text) < 5000)%Z ->
  nth_error GOOGLE_TTS_RPC 0 = Some m ->
  exists src' tgt' data,
    outcome (_process_lang LANGUAGES src) = Ret src'
    /\ outcome (_process_lang LANGUAGES tgt) = Ret tgt'
    /\ _f_req_data GOOGLE_TTS_RPC rnd (PStr (Py.str text)) src' tgt' = Ret data
    /\ List.filter is_post (trace (translate' self rnd text src tgt pronounce))
       = [SessionPost (url self) data (timeout self)].
Proof.
  intros Hlen Hm.
  destruct (translate_run self rnd text src tgt pronounce m Hlen Hm)
    as (ws & wt & src' & tgt' & data & Hs & Ht & Hd & ->).
  exists src', tgt', data. rewrite Hs, Ht. repeat split; try assumption.
  cbn [trace fst].
  destruct (process_lang_run src) as (ws0 & l0 & Hs0 & Hw0 & _).
  destruct (process_lang_run tgt) as (wt0 & l1 & Ht0 & Hw1 & _).
  rewrite Hs in Hs0. rewrite Ht in Ht0.
  injection Hs0 as <- _. injection Ht0 as <- _.
  rewrite !List.filter_app, (filter_no_post _ Hw0), (filter_no_post _ Hw1).
  reflexivity.
Qed.

(** [detect] on a str that passes the guards posts exactly one request
    and nothing else: the body is built for the languages "auto" and
    "auto", whatever the text. *)
Theorem detect_posts_one_request self rnd (s m : string) :
  (0 < Str.len s < 5000)%Z ->
  nth_error GOOGLE_TTS_RPC 0 = Some m ->
  exists data,
    _f_req_data GOOGLE_TTS_RPC rnd (PStr s) "auto" "auto" = Ret data
    /\ trace (detect' self rnd (PStr s)) = [SessionPost (url self) data (timeout self)].
Proof.
  intros Hlen Hm.
  destruct (detect_run self rnd s m Hlen Hm) as (data & Hd & ->).
  exists data. now split.
Qed.

(** *** A line that cannot be decoded *)

Lemma select_line_bad (m : string) (pre : list string) bad rest :
  no_marker_line decode_utf8 m pre ->
  decode_utf8 bad = None ->
  select_line decode_utf8 m (pre ++ bad :: rest)%list = Raise UnicodeDecodeError.
Proof.
  intros Hpre Hbad.
  induction Hpre as [ | line pre' (d & Hd & Hc) _ IH ].
  - cbn [app]. rewrite select_line_cons. unfold decode. now rewrite Hbad.
  - cbn [app]. rewrite select_line_cons, Hd; cbn [rbind]. now rewrite Hc.
Qed.

(** Every line is decoded before it is tested for the marker: a line
    that is not UTF-8, met before any marker line, makes [translate]
    and [detect] raise UnicodeDecodeError, whatever the lines after it
    hold. *)
Theorem undecodable_line_aborts
    self r rnd (s : string) src tgt pronounce m pre bad rest :
  (0 < Str.len s < 5000)%Z ->
  nth_error GOOGLE_TTS_RPC 0 = Some m ->
  (forall data, post (url self) data (timeout self) = PostResponse r) ->
  lines r = (pre ++ bad :: rest)%list ->
  no_marker_line decode_utf8 m pre ->
  decode_utf8 bad = None ->
  outcome (translate' self rnd (PStr s) src tgt pronounce) = Raise UnicodeDecodeError
  /\ outcome (detect' self rnd (PStr s)) = Raise UnicodeDecodeError.
Proof.
  intros Hlen Hm Hpost Hlines Hpre Hbad.
  pose proof (select_line_bad m pre bad rest Hpre Hbad) as Hsel.
  rewrite <- Hlines in Hsel. split.
  - rewrite (translate_answered self r rnd (PStr s) src tgt pronounce m Hlen Hm Hpost).
    now rewrite Hsel.
  - rewrite (detect_answered self r rnd s m Hlen Hm Hpost).
    now rewrite Hsel.
Qed.

(** *** Shapes *)

(** The shape dispatch ends without a result (so that the scan goes on
    with the next line) exactly when the translation array can be read
    and measured and its length is neither 1 nor 2; with length 1 or 2
    it returns a result or raises. *)
Theorem dispatch_no_result_iff (pronounce : bool) (env : pyval) :
  dispatch pronounce env = Ret None
  <-> exists arr n,
        translation_array env = Ret arr
        /\ Py.len arr = Ret n
        /\ n <> 1%Z /\ n <> 2%Z.
Proof.
  unfold dispatch. split.
  - destruct (translation_array env) as [arr | ] eqn:Ea; cbn [rbind]; [ | discriminate ].
    destruct (Py.len arr) as [n | ] eqn:En; cbn [rbind]; [ | discriminate ].
    destruct (Z.eqb_spec n 1).
    + destruct (Py.getitem arr 0) as [r0 | ]; cbn [rbind]; [ | discriminate ].
      destruct (Py.len r0) as [n0 | ]; cbn [rbind]; [ | discriminate ].
      destruct (5 <? n0)%Z.
      * destruct (Py.getitem r0 5) as [s5 | ]; cbn [rbind]; [ | discriminate ].
        destruct (Py.iter s5) as [items | ]; cbn [rbind]; [ | discriminate ].
        destruct (concat_sentences "" items); cbn [rbind]; [ | discriminate ].
        destruct pronounce; cbn [negb]; [ | discriminate ].
        destruct (pronounce_src env); cbn [rbind]; [ | discriminate ].
        destruct (pronounce_tgt env); cbn [rbind]; discriminate.
      * destruct (Py.getitem r0 0); cbn [rbind]; [ | discriminate ].
        destruct pronounce; discriminate.
    + destruct (Z.eqb_spec n 2).
      * destruct (Py.iter arr) as [items | ]; cbn [rbind]; [ | discriminate ].
        destruct (first_items [] items); cbn [rbind]; [ | discriminate ].
        destruct pronounce; cbn [negb]; [ | discriminate ].
        destruct (pronounce_src env); cbn [rbind]; [ | discriminate ].
        destruct (pronounce_tgt env); cbn [rbind]; discriminate.
      * intros _. exists arr, n. repeat split; auto.
  - intros (arr & n & -> & Hn & H1 & H2). cbn [rbind]. rewrite Hn; cbn [rbind].
    apply Z.eqb_neq in H1, H2. now rewrite H1, H2.
Qed.

(** With [pronounce], whatever [translate] finds on a line is a list
    of three: the result that the same line gives without [pronounce],
    then two pronunciation values. *)
Theorem pronounce_result_is_a_triple (env v : pyval) :
  dispatch true env = Ret (Some v) ->
  exists t psrc ptgt,
    v = PList [t; psrc; ptgt] /\ dispatch false env = Ret (Some t).
Proof.
  unfold dispatch.
  destruct (translation_array env) as [arr | ]; cbn [rbind]; [ | discriminate ].
  destruct (Py.len arr) as [n | ]; cbn [rbind]; [ | discriminate ].
  destruct (n =? 1)%Z.
  - destruct (Py.getitem arr 0) as [r0 | ]; cbn [rbind]; [ | discriminate ].
    destruct (Py.len r0) as [n0 | ]; cbn [rbind]; [ | discriminate ].
    destruct (5 <? n0)%Z.
    + destruct (Py.getitem r0 5) as [s5 | ]; cbn [rbind]; [ | discriminate ].
      destruct (Py.iter s5) as [items | ]; cbn [rbind]; [ | discriminate ].
      destruct (concat_sentences "" items) as [txt | ]; cbn [rbind negb];
        [ | discriminate ].
      destruct (pronounce_src env) as [a | ]; cbn [rbind]; [ | discriminate ].
      destruct (pronounce_tgt env) as [b | ]; cbn [rbind]; [ | discriminate ].
      intros [= <-]. eauto.
    + destruct (Py.getitem r0 0) as [x | ]; cbn [rbind]; [ | discriminate ].
      intros [= <-]. eauto.
  - destruct (n =? 2)%Z; [ | discriminate ].
    destruct (Py.iter arr) as [items | ]; cbn [rbind]; [ | discriminate ].
    destruct (first_items [] items) as [xs | ]; cbn [rbind negb]; [ | discriminate ].
    destruct (pronounce_src env) as [a | ]; cbn [rbind]; [ | discriminate ].
    destruct (pronounce_tgt env) as [b | ]; cbn [rbind]; [ | discriminate ].
    intros [= <-]. eauto.
Qed.

(** *** The request body *)

Lemma forallb_app (p : ascii -> bool) (a b : string) :
  Str.forallb p (a +:+ b) = Str.forallb p a && Str.forallb p b.
Proof.
  induction a as [ | c a IH ]; [ reflexivity | ].
  change (p c && Str.forallb p (a +:+ b) = p c && Str.forallb p a && Str.forallb p b).
  rewrite IH. apply andb_assoc.
Qed.

Lemma quote_char_form (c : ascii) :
  Str.forallb Py.form_char (Py.quote_char c) = true.
Proof. destruct c as [[] [] [] [] [] [] [] []]; reflexivity. Qed.

Lemma quote_form (s : string) : Str.forallb Py.form_char (Py.quote s) = true.
Proof.
  induction s as [ | c s IH ]; [ reflexivity | ].
  change (Str.forallb Py.form_char (Py.quote_char c +:+ Py.quote s) = true).
  now rewrite forallb_app, quote_char_form, IH.
Qed.

(** Whatever the text and the language codes hold (quotes, ampersands,
    equal signs, line breaks, characters above 127), the body that
    [_f_req_data] returns is the single form field "f.req=", a value
    made only of letters, digits, [_.-~/] and percent escapes, and a
    closing ampersand. *)
Theorem f_req_data_is_one_form_field rnd text src tgt data :
  _f_req_data GOOGLE_TTS_RPC rnd text src tgt = Ret data ->
  exists value,
    data = "f.req=" +:+ value +:+ "&"
    /\ Str.forallb Py.form_char value = true.
Proof.
  unfold _f_req_data.
  destruct (Py.strip text) as [stripped | ]; cbn [rbind]; [ | discriminate ].
  destruct (random_choice rnd GOOGLE_TTS_RPC) as [rpc_id | ]; cbn [rbind];
    [ | discriminate ].
  intros [= <-]. eexists. split; [ reflexivity | apply quote_form ].
Qed.

Lemma lstrip_head (s : string) :
  match Str.lstrip s with
  | String c _ => Str.isspace c = false
  | EmptyString => True
  end.
Proof.
  induction s as [ | c s IH ]; [ exact I | ].
  cbn [Str.lstrip]. destruct (Str.isspace c) eqn:E; [ exact IH | exact E ].
Qed.

Lemma rstrip_idempotent (s : string) : Str.rstrip (Str.rstrip s) = Str.rstrip s.
Proof.
  induction s as [ | c s IH ]; [ reflexivity | ].
  cbn [Str.rstrip]. destruct (Str.rstrip s) as [ | a r ] eqn:E.
  - destruct (Str.isspace c) eqn:Ec; [ reflexivity | ].
    cbn [Str.rstrip]. now rewrite Ec.
  - change (Str.rstrip (String c (String a r))) with
      (match Str.rstrip (String a r) with
       | EmptyString => if Str.isspace c then EmptyString else String c EmptyString
       | x => String c x
       end).
    now rewrite IH.
Qed.

Lemma rstrip_keeps_head (c : ascii) (s : string) :
  Str.isspace c = false ->
  exists r, Str.rstrip (String c s) = String c r.
Proof.
  intros Hc. cbn [Str.rstrip]. destruct (Str.rstrip s); rewrite ?Hc; eauto.
Qed.

Lemma strip_idempotent (s : string) : Str.strip (Str.strip s) = Str.strip s.
Proof.
  unfold Str.strip.
  assert (Hl : Str.lstrip (Str.rstrip (Str.lstrip s)) = Str.rstrip (Str.lstrip s)).
  { pose proof (lstrip_head s) as Hh.
    destruct (Str.lstrip s) as [ | c t ]; [ reflexivity | ].
    destruct (rstrip_keeps_head c t Hh) as [r ->].
    cbn [Str.lstrip]. now rewrite Hh. }
  rewrite Hl. apply rstrip_idempotent.
Qed.

(** White space around the text never reaches the backend: the body
    built for a text is the body built for the stripped text (while
    the guards of [translate] and [detect] measure the text as it was
    given). *)
Theorem f_req_data_ignores_padding rnd (s : string) src tgt :
  _f_req_data GOOGLE_TTS_RPC rnd (PStr s) src tgt
  = _f_req_data GOOGLE_TTS_RPC rnd (PStr (Str.strip s)) src tgt.
Proof. unfold _f_req_data. cbn [Py.strip rbind]. now rewrite strip_idempotent. Qed.


(** *** Language codes, once more *)

(** What [_process_lang] returns is "auto" or a key of [LANGUAGES],
    and it is a fixed point: processed again it comes back unchanged
    and without a warning. *)
Theorem process_lang_settles (code : string) :
  exists w l,
    _process_lang LANGUAGES code = (w, Ret l)
    /\ (l = "auto" \/ is_Some (LANGUAGES !! l))
    /\ _process_lang LANGUAGES l = ([], Ret l).
Proof.
  destruct (process_lang_run code) as (w & l & Hrun & _ & Hl).
  exists w, l. repeat split; try assumption.
  unfold _process_lang. destruct Hl as [-> | Hkey]; [ reflexivity | ].
  destruct (String.eqb l "auto"); [ reflexivity | ].
  now rewrite bool_decide_eq_true_2.
Qed.

End Coverage.

(** *** Construction of the client *)

(** A client that [GoogleTranslate(...)] builds has a suffix of the
    allow-list, the given one if it is in the list and the default one
    otherwise; its base URL, endpoint and Referer header are derived
    from that suffix; its User-Agent is one of [USER_AGENTS]; absent
    proxies are the empty mapping. *)
Theorem client_construction
    (URLS_SUFFIX : list string) (URL_SUFFIX_DEFAULT : string)
    (USER_AGENTS : list string) rnd suffix t proxy (c : GoogleTranslate) :
  GoogleTranslate_init URLS_SUFFIX URL_SUFFIX_DEFAULT USER_AGENTS rnd suffix t proxy
    = Ret c ->
  (In suffix URLS_SUFFIX /\ url_suffix c = suffix
   \/ ~ In suffix URLS_SUFFIX /\ url_suffix c = URL_SUFFIX_DEFAULT)
  /\ base_url c = "https://translate.google." +:+ url_suffix c
  /\ url c = base_url c +:+ "/_/TranslateWebserverUi/data/batchexecute"
  /\ timeout c = t
  /\ proxies c = match proxy with None => [] | Some p => p end
  /\ exists ua,
       In ua USER_AGENTS
       /\ headers c =
          [("Referer", base_url c);
           ("User-Agent", ua);
           ("Content-Type", "application/x-www-form-urlencoded;charset=utf-8")].
Proof.
  unfold GoogleTranslate_init, _rq_headers, random_choice.
  destruct (nth_error USER_AGENTS (rnd mod List.length USER_AGENTS)) as [ua | ] eqn:E;
    cbn [rbind]; [ | discriminate ].
  intros [= <-]. cbn [url_suffix base_url url timeout proxies headers].
  repeat split.
  - destruct (existsb (String.eqb suffix) URLS_SUFFIX) eqn:Ex.
    + left. split; [ | reflexivity ].
      apply existsb_exists in Ex as (x & Hin & Heq).
      apply String.eqb_eq in Heq. now subst.
    + right. split; [ | reflexivity ].
      intros Hin. assert (existsb (String.eqb suffix) URLS_SUFFIX = true); [ | congruence ].
      apply existsb_exists. exists suffix. split; [ assumption | apply String.eqb_refl ].
  - exists ua. split; [ eapply nth_error_In; eassumption | reflexivity ].
Qed.

(** Construction fails exactly when [USER_AGENTS] is empty, with the
    IndexError of [random.choice]; no url suffix, timeout or proxy
    makes it fail. *)
Theorem client_construction_needs_user_agent
    (URLS_SUFFIX : list string) (URL_SUFFIX_DEFAULT : string)
    (USER_AGENTS : list string) rnd suffix t proxy :
  (USER_AGENTS = [] ->
   GoogleTranslate_init URLS_SUFFIX URL_SUFFIX_DEFAULT USER_AGENTS rnd suffix t proxy
   = Raise IndexError)
  /\ (USER_AGENTS <> [] ->
      exists c,
        GoogleTranslate_init URLS_SUFFIX URL_SUFFIX_DEFAULT USER_AGENTS rnd suffix t proxy
        = Ret c).
Proof.
  unfold GoogleTranslate_init, _rq_headers. split.
  - intros ->. unfold random_choice.
    now destruct (rnd mod List.length (@nil string)).
  - intros Hne. destruct USER_AGENTS as [ | ua l ] eqn:E; [ congruence | ].
    destruct (random_choice_total rnd (ua :: l) ua eq_refl) as (y & -> & _).
    eexists. reflexivity.
Qed.

(** *** The message of the error *)

(** Building the error for a client of this package raises, instead
    of giving the error, in one case only: no message (or an empty
    one) is passed and the response has status 200.  A message passed
    by the caller, a missing response and every other status give the
    error object. *)
Theorem client_error_raises_only_at_status_200
    (msg : option string) (self : GoogleTranslate) (rsp : option Response) :
  raised (GoogleTranslateError_init msg (Some self) rsp) = true
  <-> (msg = None \/ msg = Some "")
      /\ exists r, rsp = Some r /\ status_code r = 200%Z.
Proof.
  split.
  - destruct msg as [[ | c m] | ]; cbn [GoogleTranslateError_init raised];
      try discriminate.
    + destruct rsp as [r | ]; [ | discriminate ].
      destruct (Z.eq_dec (status_code r) 200%Z) as [E | E].
      * intros _. split; [ now right | eauto ].
      * rewrite (infer_msg_client self r E). discriminate.
    + destruct rsp as [r | ]; [ | discriminate ].
      destruct (Z.eq_dec (status_code r) 200%Z) as [E | E].
      * intros _. split; [ now left | eauto ].
      * rewrite (infer_msg_client self r E). discriminate.
  - intros (Hmsg & r & -> & E).
    assert (Hinf : infer_msg self (Some r) = Raise (AttributeError "lang_check")).
    { unfold infer_msg. rewrite E. reflexivity. }
    destruct Hmsg as [-> | ->]; cbn [GoogleTranslateError_init]; now rewrite Hinf.
Qed.

(** Outside status 200 [infer_msg] reads no attribute of the object it
    is given: for any object, also one with no attribute at all, it
    returns the message with the cause for 403, for 500 and above, or
    "Unknown". *)
Theorem infer_msg_reads_no_attribute {T} `{TTSLike T} (tts : T) (rsp : Response) :
  status_code rsp <> 200%Z ->
  infer_msg tts (Some rsp) =
    Ret ((Str.of_Z (status_code rsp) +:+ " (" +:+ reason rsp +:+ ") from TTS API")
         +:+ ". Probable cause: " +:+
         (if (status_code rsp =? 403)%Z then "Bad token or upstream API changes"
          else if (500 <=? status_code rsp)%Z then "Upstream API error. Try again later."
          else "Unknown")).
Proof.
  intros Hne. unfold infer_msg.
  destruct (status_code rsp =? 403)%Z; [ reflexivity | ].
  apply Z.eqb_neq in Hne. rewrite Hne; cbn [rbind].
  now destruct (500 <=? status_code rsp)%Z.
Qed.

(** *** What the loops do not read *)

(** Once a marker line has given [translate] its result the lines
    after it are not read, not even decoded: the result is the same
    whatever follows.  [detect] stops at the first marker line in
    every case, result or exception: its loop gives the same outcome
    whatever follows that line. *)
Theorem lines_after_the_result_are_not_read
    (json_loads : string -> option pyval) (decode_utf8 : string -> option string)
    (GOOGLE_TTS_RPC : list string) (LANGUAGES : gmap string string)
    (m : string) pronounce pre line d (rest rest' : list string) :
  nth_error GOOGLE_TTS_RPC 0 = Some m ->
  no_marker_line decode_utf8 m pre ->
  decode_utf8 line = Some d ->
  Str.contains m d = true ->
  (forall v,
     translate_line json_loads pronounce d = Ret (Some v) ->
     translate_lines json_loads decode_utf8 GOOGLE_TTS_RPC pronounce
       (pre ++ line :: rest)%list
     = Ret (Some v))
  /\ detect_lines json_loads decode_utf8 GOOGLE_TTS_RPC LANGUAGES (pre ++ line :: rest)%list
     = detect_lines json_loads decode_utf8 GOOGLE_TTS_RPC LANGUAGES
         (pre ++ line :: rest')%list.
Proof.
  intros Hm Hpre Hd Hc.
  pose proof (marker_first GOOGLE_TTS_RPC m Hm) as Hmk.
  assert (Hsel : forall tail,
            select_line decode_utf8 m (pre ++ line :: tail)%list = Ret (Some (d, tail))).
  { intros tail. induction Hpre as [ | l pre' (d' & Hd' & Hc') _ IH ].
    - cbn [app]. rewrite select_line_cons. unfold decode. rewrite Hd; cbn [rbind].
      now rewrite Hc.
    - cbn [app]. rewrite select_line_cons, Hd'; cbn [rbind]. now rewrite Hc'. }
  split.
  - intros v Hline.
    rewrite (translate_lines_select json_loads decode_utf8 GOOGLE_TTS_RPC m) by assumption.
    rewrite Hsel; cbn [rbind]. now rewrite Hline.
  - rewrite !(detect_lines_select json_loads decode_utf8 GOOGLE_TTS_RPC LANGUAGES m)
      by assumption.
    now rewrite !Hsel.
Qed.

(** *** A sentence with its pronunciation *)


(** *** The same on concrete backends *)

Lemma translate_parse_error_example :
  outcome (translate Mock.json_loads Mock.decode_utf8
             (Fixture.answers (Fixture.ok [Fixture.garbage]))
             Fixture.RPC Fixture.languages Fixture.client 0
             (PStr "hello") "auto" "es" false)
  = Raise JSONDecodeError.
Proof.
  apply (translate_parse_error_propagates
           Mock.json_loads Mock.decode_utf8
           (Fixture.answers (Fixture.ok [Fixture.garbage]))
           Fixture.RPC Fixture.languages Fixture.client
           (Fixture.ok [Fixture.garbage]) 0 (PStr "hello") "auto" "es" false
           "MkEWBc" Fixture.garbage [] JSONDecodeError).
  - split; reflexivity.
  - reflexivity.
  - intros data. reflexivity.
  - vm_compute; reflexivity.
  - vm_compute; reflexivity.
Defined.

Lemma detect_parse_error_example :
  outcome (detect Mock.json_loads Mock.decode_utf8
             (Fixture.answers
                (Fixture.ok [Fixture.wire "MkEWBc" (PList [PList [PNone; PNone; PInt 7]])]))
             Fixture.RPC Fixture.languages Fixture.client 0 (PStr "hello"))
  = Raise (AttributeError "lower").
Proof.
  apply (detect_parse_error_propagates
           Mock.json_loads Mock.decode_utf8
           (Fixture.answers
              (Fixture.ok [Fixture.wire "MkEWBc" (PList [PList [PNone; PNone; PInt 7]])]))
           Fixture.RPC Fixture.languages Fixture.client
           (Fixture.ok [Fixture.wire "MkEWBc" (PList [PList [PNone; PNone; PInt 7]])])
           0 "hello" "MkEWBc"
           (Fixture.wire "MkEWBc" (PList [PList [PNone; PNone; PInt 7]])) []
           (AttributeError "lower")).
  - split; reflexivity.
  - reflexivity.
  - intros data. reflexivity.
  - vm_compute; reflexivity.
  - vm_compute; reflexivity.
Defined.

Lemma no_marker_in_preamble :
  no_marker_line Mock.decode_utf8 "MkEWBc" [")]}'"].
Proof.
  constructor; [ | constructor ].
  exists ")]}'". split; reflexivity.
Defined.

Lemma http_error_example :
  outcome (translate Mock.json_loads Mock.decode_utf8
             (Fixture.answers (Fixture.status 429 "Too Many Requests"))
             Fixture.RPC Fixture.languages Fixture.client 0
             (PStr "hello") "auto" "es" false)
  = Raise (GoogleTranslateError
             (Some "429 (Too Many Requests) from TTS API. Probable cause: Unknown"))
  /\ outcome (detect Mock.json_loads Mock.decode_utf8
                (Fixture.answers (Fixture.status 429 "Too Many Requests"))
                Fixture.RPC Fixture.languages Fixture.client 0 (PStr "hello"))
     = Raise (GoogleTranslateError
                (Some "429 (Too Many Requests) from TTS API. Probable cause: Unknown")).
Proof.
  apply (http_error_is_classified
           Mock.json_loads Mock.decode_utf8
           (Fixture.answers (Fixture.status 429 "Too Many Requests"))
           Fixture.RPC Fixture.languages Fixture.client
           (Fixture.status 429 "Too Many Requests") 0 "hello" "auto" "es" false "MkEWBc").
  - split; reflexivity.
  - reflexivity.
  - intros data. reflexivity.
  - exact no_marker_in_preamble.
  - split; [ discriminate | reflexivity ].
Defined.

Lemma no_payload_example :
  outcome (translate Mock.json_loads Mock.decode_utf8
             (Fixture.answers (Fixture.status 200 "OK"))
             Fixture.RPC Fixture.languages Fixture.client 0
             (PStr "hello") "auto" "es" true)
  = Ret PNone
  /\ outcome (detect Mock.json_loads Mock.decode_utf8
                (Fixture.answers (Fixture.status 200 "OK"))
                Fixture.RPC Fixture.languages Fixture.client 0 (PStr "hello"))
     = Ret None.
Proof.
  apply (no_payload_returns_none
           Mock.json_loads Mock.decode_utf8
           (Fixture.answers (Fixture.status 200 "OK"))
           Fixture.RPC Fixture.languages Fixture.client
           (Fixture.status 200 "OK") 0 "hello" "auto" "es" true "MkEWBc").
  - split; reflexivity.
  - reflexivity.
  - intros data. reflexivity.
  - exact no_marker_in_preamble.
  - left. reflexivity.
Defined.

Lemma connect_timeout_example :
  outcome (translate Mock.json_loads Mock.decode_utf8 Fixture.times_out
             Fixture.RPC Fixture.languages Fixture.client 0
             (PStr "hello") "auto" "es" false)
  = Raise ConnectTimeout
  /\ outcome (detect Mock.json_loads Mock.decode_utf8 Fixture.times_out
                Fixture.RPC Fixture.languages Fixture.client 0 (PStr "hello"))
     = Raise (GoogleTranslateError (Some "Failed to connect. Probable cause: timeout")).
Proof.
  apply (connect_timeout_translate_raw_detect_wrapped
           Mock.json_loads Mock.decode_utf8 Fixture.times_out
           Fixture.RPC Fixture.languages Fixture.client 0 "hello" "auto" "es" false
           "MkEWBc").
  - split; reflexivity.
  - reflexivity.
  - intros data. reflexivity.
Defined.

Lemma request_failure_example :
  outcome (translate Mock.json_loads Mock.decode_utf8 Fixture.fails
             Fixture.RPC Fixture.languages Fixture.client 0
             (PStr "hello") "auto" "es" false)
  = Raise (GoogleTranslateError (Some "Failed to connect. Probable cause: timeout"))
  /\ outcome (detect Mock.json_loads Mock.decode_utf8 Fixture.fails
                Fixture.RPC Fixture.languages Fixture.client 0 (PStr "hello"))
     = Raise (GoogleTranslateError (Some "Failed to connect. Probable cause: timeout")).
Proof.
  apply (request_failure_is_wrapped
           Mock.json_loads Mock.decode_utf8 Fixture.fails
           Fixture.RPC Fixture.languages Fixture.client 0 "hello" "auto" "es" false
           "MkEWBc").
  - split; reflexivity.
  - reflexivity.
  - intros data. reflexivity.
Defined.

Lemma translate_posts_one_request_example :
  exists src' tgt' data,
    outcome (_process_lang Fixture.languages "klingon") = Ret src'
    /\ outcome (_process_lang Fixture.languages "es") = Ret tgt'
    /\ _f_req_data Fixture.RPC 0 (PStr (Py.str (PStr "hello"))) src' tgt' = Ret data
    /\ List.filter is_post
         (trace (translate Mock.json_loads Mock.decode_utf8 Fixture.times_out
                   Fixture.RPC Fixture.languages Fixture.client 0
                   (PStr "hello") "klingon" "es" false))
       = [SessionPost (url Fixture.client) data (timeout Fixture.client)].
Proof.
  apply (translate_posts_one_request
           Mock.json_loads Mock.decode_utf8 Fixture.times_out
           Fixture.RPC Fixture.languages Fixture.client 0 (PStr "hello")
           "klingon" "es" false "MkEWBc").
  - split; reflexivity.
  - reflexivity.
Defined.

Lemma detect_posts_one_request_example :
  exists data,
    _f_req_data Fixture.RPC 0 (PStr "hello") "auto" "auto" = Ret data
    /\ trace (detect Mock.json_loads Mock.decode_utf8 Fixture.fails
                Fixture.RPC Fixture.languages Fixture.client 0 (PStr "hello"))
       = [SessionPost (url Fixture.client) data (timeout Fixture.client)].
Proof.
  apply (detect_posts_one_request
           Mock.json_loads Mock.decode_utf8 Fixture.fails
           Fixture.RPC Fixture.languages Fixture.client 0 "hello" "MkEWBc").
  - split; reflexivity.
  - reflexivity.
Defined.

Lemma undecodable_line_example :
  outcome (translate Mock.json_loads Mock.decode_utf8
             (Fixture.answers
                (Fixture.ok [")]}'"; Fixture.not_utf8; Fixture.wire "MkEWBc" Fixture.hola]))
             Fixture.RPC Fixture.languages Fixture.client 0
             (PStr "hello") "auto" "es" false)
  = Raise UnicodeDecodeError
  /\ outcome (detect Mock.json_loads Mock.decode_utf8
                (Fixture.answers
                   (Fixture.ok [")]}'"; Fixture.not_utf8; Fixture.wire "MkEWBc" Fixture.hola]))
                Fixture.RPC Fixture.languages Fixture.client 0 (PStr "hello"))
     = Raise UnicodeDecodeError.
Proof.
  apply (undecodable_line_aborts
           Mock.json_loads Mock.decode_utf8
           (Fixture.answers
              (Fixture.ok [")]}'"; Fixture.not_utf8; Fixture.wire "MkEWBc" Fixture.hola]))
           Fixture.RPC Fixture.languages Fixture.client
           (Fixture.ok [")]}'"; Fixture.not_utf8; Fixture.wire "MkEWBc" Fixture.hola])
           0 "hello" "auto" "es" false "MkEWBc"
           [")]}'"] Fixture.not_utf8 [Fixture.wire "MkEWBc" Fixture.hola]).
  - split; reflexivity.
  - reflexivity.
  - intros data. reflexivity.
  - reflexivity.
  - exact no_marker_in_preamble.
  - reflexivity.
Defined.

Lemma pronounce_result_example :
  exists t psrc ptgt,
    PList [PList [PStr "hello"; PStr "hi"]; PStr "ni hao"; PNone] = PList [t; psrc; ptgt]
    /\ dispatch false Fixture.pair = Ret (Some t).
Proof.
  apply (pronounce_result_is_a_triple Fixture.pair). reflexivity.
Defined.

Lemma f_req_data_form_field_example :
  exists value,
    "f.req=%5B%5B%5B%22MkEWBc%22%2C%22%5B%5B%5C%22a%26b%3Dc%5C%22%2C%5C%22auto%5C%22%2C%5C%22es%5C%22%2Ctrue%5D%2C%5B1%5D%5D%22%2Cnull%2C%22generic%22%5D%5D%5D&"
    = "f.req=" +:+ value +:+ "&"
    /\ Str.forallb Py.form_char value = true.
Proof.
  apply (f_req_data_is_one_form_field Fixture.RPC 0 (PStr "  a&b=c ") "auto" "es").
  vm_compute; reflexivity.
Defined.

Lemma client_construction_example :
  (In "example" Fixture.suffixes /\ url_suffix Fixture.client = "example"
   \/ ~ In "example" Fixture.suffixes /\ url_suffix Fixture.client = "com")
  /\ base_url Fixture.client = "https://translate.google." +:+ url_suffix Fixture.client
  /\ url Fixture.client
     = base_url Fixture.client +:+ "/_/TranslateWebserverUi/data/batchexecute"
  /\ timeout Fixture.client = 5%Z
  /\ proxies Fixture.client = []
  /\ exists ua,
       In ua Fixture.user_agents
       /\ headers Fixture.client =
          [("Referer", base_url Fixture.client);
           ("User-Agent", ua);
           ("Content-Type", "application/x-www-form-urlencoded;charset=utf-8")].
Proof.
  apply (client_construction Fixture.suffixes "com" Fixture.user_agents 0
           "example" 5%Z None Fixture.client).
  reflexivity.
Defined.

Lemma infer_msg_no_attribute_example :
  infer_msg Fixture.client (Some (Fixture.status 503 "Service Unavailable"))
  = Ret "503 (Service Unavailable) from TTS API. Probable cause: Upstream API error. Try again later.".
Proof.
  apply (infer_msg_reads_no_attribute Fixture.client
           (Fixture.status 503 "Service Unavailable")).
  discriminate.
Defined.

Lemma infer_msg_classified_example :
  infer_msg {| Fixture.stub_lang_check := PBool true; Fixture.stub_lang := PStr "es" |}
            (Some (Fixture.status 200 "OK"))
  = Ret "200 (OK) from TTS API. Probable cause: Unknown".
Proof.
  apply (infer_msg_classified
           {| Fixture.stub_lang_check := PBool true; Fixture.stub_lang := PStr "es" |}
           (Fixture.status 200 "OK") (PBool true) (PStr "es")); reflexivity.
Defined.

Lemma lines_after_the_result_example :
  translate_lines Mock.json_loads Mock.decode_utf8 Fixture.RPC false
    ([")]}'"] ++ Fixture.wire "MkEWBc" Fixture.hola :: [Fixture.not_utf8])%list
  = Ret (Some (PStr "Hola mundo "))
  /\ detect_lines Mock.json_loads Mock.decode_utf8 Fixture.RPC Fixture.languages
       ([")]}'"] ++ Fixture.wire "MkEWBc" (Fixture.detection "EN")
                 :: [Fixture.not_utf8])%list
     = detect_lines Mock.json_loads Mock.decode_utf8 Fixture.RPC Fixture.languages
         ([")]}'"] ++ Fixture.wire "MkEWBc" (Fixture.detection "EN") :: [])%list.
Proof.
  split.
  - apply (proj1 (lines_after_the_result_are_not_read
                    Mock.json_loads Mock.decode_utf8 Fixture.RPC Fixture.languages
                    "MkEWBc" false [")]}'"] (Fixture.wire "MkEWBc" Fixture.hola)
                    (Fixture.wire "MkEWBc" Fixture.hola) [Fixture.not_utf8] []
                    eq_refl no_marker_in_preamble eq_refl eq_refl)).
    vm_compute; reflexivity.
  - apply (proj2 (lines_after_the_result_are_not_read
                    Mock.json_loads Mock.decode_utf8 Fixture.RPC Fixture.languages
                    "MkEWBc" false [")]}'"]
                    (Fixture.wire "MkEWBc" (Fixture.detection "EN"))
                    (Fixture.wire "MkEWBc" (Fixture.detection "EN"))
                    [Fixture.not_utf8] []
                    eq_refl no_marker_in_preamble eq_refl eq_refl)).
Defined.


(** the sentence of the last example, as the caller gets it *)
Lemma spoken_sentence :
  outcome (translate Mock.json_loads Mock.decode_utf8
             (Fixture.answers
                (Fixture.ok (Fixture.body (Fixture.wire "MkEWBc" Fixture.spoken))))
             Fixture.RPC Fixture.languages Fixture.client 0
             (PStr "hello") "auto" "es" true)
  = Ret (PList [PStr "Hola "; PStr "heh-LOH"; PStr "OH-lah"]).
Proof. vm_compute; reflexivity. Qed.
